(** * Telemetry and alerting core of the cash-counter monitoring demo

    A shallow embedding of [telemetry_manager_mongodb.py]
    (class [TelemetryManagerMongoDB]), of the parts of
    [app/db/mongo_handler.py] it calls (class [MongoDBHandler]) and of its
    predecessor [old_sqlite_system/telemetry_manager.py]
    (class [TelemetryManager]).

    Python numbers are rationals ([Q]) or integers ([Z]); the methods run in
    a state-and-exception monad over a [world] that holds the manager object
    ([self]), the storage collections and the process environment.  The
    instance lock is a [threading.Lock]: it is not reentrant, so acquiring it
    while it is held never succeeds; a run that reaches such an acquisition
    ends in the outcome [Blocked]. *)

From Stdlib Require Import ZArith QArith Lia Lqa.
From stdpp Require Import base option list strings gmap pretty sorting.

Local Open Scope string_scope.
Local Open Scope list_scope.
Local Open Scope Z_scope.

(** ** Python values *)

(** The values that occur in metric metadata and alert data. *)
#[warnings="-register-all"]
Inductive pyval : Type :=
| PyInt (z : Z)
| PyFloat (q : Q)
| PyStr (s : string)
| PyDict (d : list (string * pyval)).

(** A [dict] literal with string keys, in insertion order. *)
Definition pydict : Type := list (string * pyval).

(** [d.get(k)] on a dict given by its items. *)
Fixpoint dict_get (k : string) (d : pydict) : option pyval :=
  match d with
  | [] => None
  | (k', v) :: d' => if String.eqb k' k then Some v else dict_get k d'
  end.

(** [a > b] on numbers. *)
Definition Qgt_bool (a b : Q) : bool := negb (Qle_bool a b).

(** [float('inf')], [float('-inf')] and the finite numbers. *)
Inductive xnum : Type :=
| NegInf
| Fin (q : Q)
| PosInf.

(** [min(x, v)] and [max(x, v)] for a bucket bound [x] and a finite [v]. *)
Definition xmin (x : xnum) (v : Q) : xnum :=
  match x with
  | NegInf => NegInf
  | Fin q => if Qgt_bool q v then Fin v else Fin q
  | PosInf => Fin v
  end.

Definition xmax (x : xnum) (v : Q) : xnum :=
  match x with
  | NegInf => Fin v
  | Fin q => if Qgt_bool v q then Fin v else Fin q
  | PosInf => PosInf
  end.

(** ** Exceptions *)

Inductive exn : Type :=
| PyMongoError
| ConnectionFailure
| SqliteError
| KeyError (k : string)
| ZeroDivisionError
| JSONDecodeError
| OSError
| RequestException.

(** [except PyMongoError]; [ConnectionFailure] is a subclass of it. *)
Definition is_PyMongoError (e : exn) : bool :=
  match e with
  | PyMongoError | ConnectionFailure => true
  | _ => false
  end.

(** ** Data model *)

(** [@dataclass class Alert] *)
Record Alert : Type := mkAlert {
  timestamp : Q;
  alert_type : string;
  severity : string;
  data : pydict;
  resolved : bool
}.

(** The dict [self.metrics]. *)
Record Metrics : Type := mkMetrics {
  error_count : Z;
  total_operations : Z;
  total_latency : Q;
  total_cost : Q;
  start_time : Q
}.

(** A document of the [telemetry] collection (a row of the SQLite table
    [metrics]).  [_id] is set by the store on insertion. *)
Record MetricRecord : Type := mkMetricRecord {
  m_id : option nat;
  m_metric_type : string;
  m_value : Q;
  m_metadata : pydict;
  m_timestamp : Q
}.

(** A document of the [alerts] collection (a row of the table [alerts]). *)
Record AlertRecord : Type := mkAlertRecord {
  a_id : option nat;
  a_alert_type : string;
  a_severity : string;
  a_data : pydict;
  a_timestamp : Q;
  a_resolved : bool
}.

(** The dict [health_data] of [get_system_health]; [h_timestamp] is absent in
    the SQLite-backed manager, [h_id] is added by [insert_one]. *)
Record HealthData : Type := mkHealthData {
  h_id : option nat;
  uptime_seconds : Q;
  h_total_operations : Z;
  h_error_count : Z;
  h_error_rate : Q;
  avg_latency_ms : Q;
  total_cost_usd : Q;
  active_alerts : Z;
  h_timestamp : option Q
}.

(** One bucket of [metrics_summary]. *)
Record Bucket : Type := mkBucket {
  b_count : Z;
  b_sum : Q;
  b_avg : Q;
  b_min : xnum;
  b_max : xnum
}.

(** The dict returned by [get_metrics_summary]; the SQLite-backed manager
    has no [total_records] entry. *)
Record Summary : Type := mkSummary {
  s_metrics : gmap string Bucket;
  s_alerts : gmap string Z;
  time_range_hours : Z;
  total_records : option Z
}.

(** The storage engine: the collections of the database [cash_counter] that
    the telemetry core uses (for the SQLite file: its tables). *)
Module Store.
Record t : Type := mk {
  telemetry : list MetricRecord;
  alerts : list AlertRecord;
  system_health : list HealthData
}.
Definition empty : t := mk [] [] [].
End Store.

(** A configuration file as [_load_config] sees it. *)
Inductive file : Type :=
| Unreadable                                  (* [open] raises *)
| InvalidJSON                                 (* [json.load] raises *)
| JSONObject (thresholds : option (gmap string Q)).

Inductive level : Type := DEBUG | INFO | WARNING | ERROR.

(** ** The world: the manager object and its environment

    [alert_thresholds], [metrics], [alerts], [lock] and [mongo] are the
    attributes of [self] ([mongo] stands for the storage behind the handler,
    or behind [db_path]).  [next_id] is the next identifier ([ObjectId()],
    [AUTOINCREMENT]).  The n-th entry of [faults] says whether the n-th
    storage operation from now fails, [net_faults] does the same for the
    webhook.  [clock] is what [time.time()] and [datetime.utcnow()] read,
    [fs] the configuration files that exist, [posted] the webhook deliveries
    and [log] the lines logged. *)

Record world : Type := mkWorld {
  alert_thresholds : gmap string Q;
  metrics : Metrics;
  alerts : list Alert;
  lock : bool;
  mongo : Store.t;
  next_id : nat;
  faults : list bool;
  clock : Q;
  fs : gmap string file;
  ALERT_WEBHOOK : option string;
  net_faults : list bool;
  posted : list (string * Alert);
  log : list (level * string)
}.

Definition set_alert_thresholds (x : gmap string Q) (w : world) : world :=
  mkWorld x (metrics w) (alerts w) (lock w) (mongo w) (next_id w) (faults w)
          (clock w) (fs w) (ALERT_WEBHOOK w) (net_faults w) (posted w) (log
          w).
Definition set_metrics (x : Metrics) (w : world) : world :=
  mkWorld (alert_thresholds w) x (alerts w) (lock w) (mongo w) (next_id w)
          (faults w) (clock w) (fs w) (ALERT_WEBHOOK w) (net_faults w) (posted
          w) (log w).
Definition set_alerts (x : list Alert) (w : world) : world :=
  mkWorld (alert_thresholds w) (metrics w) x (lock w) (mongo w) (next_id w)
          (faults w) (clock w) (fs w) (ALERT_WEBHOOK w) (net_faults w) (posted
          w) (log w).
Definition set_lock (x : bool) (w : world) : world :=
  mkWorld (alert_thresholds w) (metrics w) (alerts w) x (mongo w) (next_id w)
          (faults w) (clock w) (fs w) (ALERT_WEBHOOK w) (net_faults w) (posted
          w) (log w).
Definition set_mongo (x : Store.t) (w : world) : world :=
  mkWorld (alert_thresholds w) (metrics w) (alerts w) (lock w) x (next_id w)
          (faults w) (clock w) (fs w) (ALERT_WEBHOOK w) (net_faults w) (posted
          w) (log w).
Definition set_next_id (x : nat) (w : world) : world :=
  mkWorld (alert_thresholds w) (metrics w) (alerts w) (lock w) (mongo w) x
          (faults w) (clock w) (fs w) (ALERT_WEBHOOK w) (net_faults w) (posted
          w) (log w).
Definition set_faults (x : list bool) (w : world) : world :=
  mkWorld (alert_thresholds w) (metrics w) (alerts w) (lock w) (mongo w)
          (next_id w) x (clock w) (fs w) (ALERT_WEBHOOK w) (net_faults w)
          (posted w) (log w).
Definition set_clock (x : Q) (w : world) : world :=
  mkWorld (alert_thresholds w) (metrics w) (alerts w) (lock w) (mongo w)
          (next_id w) (faults w) x (fs w) (ALERT_WEBHOOK w) (net_faults w)
          (posted w) (log w).
Definition set_fs (x : gmap string file) (w : world) : world :=
  mkWorld (alert_thresholds w) (metrics w) (alerts w) (lock w) (mongo w)
          (next_id w) (faults w) (clock w) x (ALERT_WEBHOOK w) (net_faults w)
          (posted w) (log w).
Definition set_ALERT_WEBHOOK (x : option string) (w : world) : world :=
  mkWorld (alert_thresholds w) (metrics w) (alerts w) (lock w) (mongo w)
          (next_id w) (faults w) (clock w) (fs w) x (net_faults w) (posted w)
          (log w).
Definition set_net_faults (x : list bool) (w : world) : world :=
  mkWorld (alert_thresholds w) (metrics w) (alerts w) (lock w) (mongo w)
          (next_id w) (faults w) (clock w) (fs w) (ALERT_WEBHOOK w) x (posted
          w) (log w).
Definition set_posted (x : list (string * Alert)) (w : world) : world :=
  mkWorld (alert_thresholds w) (metrics w) (alerts w) (lock w) (mongo w)
          (next_id w) (faults w) (clock w) (fs w) (ALERT_WEBHOOK w)
          (net_faults w) x (log w).
Definition set_log (x : list (level * string)) (w : world) : world :=
  mkWorld (alert_thresholds w) (metrics w) (alerts w) (lock w) (mongo w)
          (next_id w) (faults w) (clock w) (fs w) (ALERT_WEBHOOK w)
          (net_faults w) (posted w) x.

(** ** Outcomes and the monad of the methods *)

Inductive outcome (A : Type) : Type :=
| Returned (a : A) (w : world)       (* the call returns [a] *)
| Raised (e : exn) (w : world)       (* the call raises [e] *)
| Blocked (w : world).               (* the call waits for the lock forever *)
Arguments Returned {A} a w.
Arguments Raised {A} e w.
Arguments Blocked {A} w.

Definition final {A} (o : outcome A) : world :=
  match o with
  | Returned _ w | Raised _ w | Blocked w => w
  end.

Definition M (A : Type) : Type := world -> outcome A.

#[global] Instance M_ret : MRet M := fun A a w => Returned a w.
#[global] Instance M_bind : MBind M := fun A B f m w =>
  match m w with
  | Returned a w' => f a w'
  | Raised e w' => Raised e w'
  | Blocked w' => Blocked w'
  end.

Definition raise {A} (e : exn) : M A := fun w => Raised e w.
Definition gets {A} (f : world -> A) : M A := fun w => Returned (f w) w.
Definition modify (f : world -> world) : M unit := fun w => Returned () (f w).

(** [try: body / except <filter> as e: handler e] *)
Definition try_except {A} (body : M A) (catches : exn -> bool)
           (handler : exn -> M A) : M A := fun w =>
  match body w with
  | Raised e w' => if catches e then handler e w' else Raised e w'
  | o => o
  end.

(** [except Exception] *)
Definition Exception (e : exn) : bool := true.

(** [with self.lock: body].  [Lock.acquire()] blocks while the lock is held;
    the lock is released when the body returns or raises. *)
Definition with_lock {A} (body : M A) : M A := fun w =>
  if lock w then Blocked w
  else match body (set_lock true w) with
       | Returned a w' => Returned a (set_lock false w')
       | Raised e w' => Raised e (set_lock false w')
       | Blocked w' => Blocked w'
       end.

(** [logger.<level>(msg)]; the interpolated part of a message is left out. *)
Definition logger (l : level) (msg : string) : M unit :=
  modify (fun w => set_log (log w ++ [(l, msg)]) w).

(** [time.time()] and [datetime.utcnow()] *)
Definition time_time : M Q := gets clock.

(** Whether the storage operation that starts now fails. *)
Definition storage_fault : M bool := fun w =>
  match faults w with
  | [] => Returned false w
  | b :: fs' => Returned b (set_faults fs' w)
  end.

(** [a / b] *)
Definition truediv (a b : Q) : M Q :=
  if Qeq_bool b 0 then raise ZeroDivisionError else mret (a / b)%Q.

(** [d[k]] on the thresholds *)
Definition getitem (d : gmap string Q) (k : string) : M Q :=
  match d !! k with
  | Some v => mret v
  | None => raise (KeyError k)
  end.

(** [str(ObjectId)]: some non-empty rendering of the identifier. *)
Definition str_id (n : nat) : string := "id" +:+ pretty n.

(** [for x in l: body x] *)
Fixpoint for_each {A} (l : list A) (body : A -> M unit) : M unit :=
  match l with
  | [] => mret ()
  | x :: l' => body x ;; for_each l' body
  end.

(** [requests.post(url, json=asdict(alert), timeout=2)] *)
Definition requests_post (url : string) (alert : Alert) : M unit := fun w =>
  match net_faults w with
  | true :: nf => Raised RequestException (set_net_faults nf w)
  | false :: nf => Returned () (set_posted (posted w ++ [(url, alert)]) (set_net_faults nf w))
  | [] => Returned () (set_posted (posted w ++ [(url, alert)]) w)
  end.

(** ** [app/db/mongo_handler.py] *)

Module MongoDBHandler.

(** [collection.insert_one(doc)] has a client half, which sets
    [doc['_id'] = ObjectId()] on the caller's dict, and a server half,
    which stores the document or raises. *)
Definition ObjectId : M nat := fun w =>
  Returned (next_id w) (set_next_id (S (next_id w)) w).

Definition telemetry_store (doc : MetricRecord) : M unit :=
  bad ← storage_fault;
  if bad : bool then raise PyMongoError
  else modify (fun w =>
    set_mongo (Store.mk (Store.telemetry (mongo w) ++ [doc])
                        (Store.alerts (mongo w))
                        (Store.system_health (mongo w))) w).

Definition alerts_store (doc : AlertRecord) : M unit :=
  bad ← storage_fault;
  if bad : bool then raise PyMongoError
  else modify (fun w =>
    set_mongo (Store.mk (Store.telemetry (mongo w))
                        (Store.alerts (mongo w) ++ [doc])
                        (Store.system_health (mongo w))) w).

Definition system_health_store (doc : HealthData) : M unit :=
  bad ← storage_fault;
  if bad : bool then raise PyMongoError
  else modify (fun w =>
    set_mongo (Store.mk (Store.telemetry (mongo w))
                        (Store.alerts (mongo w))
                        (Store.system_health (mongo w) ++ [doc])) w).

(** [self.telemetry.insert_one(data)], giving [result.inserted_id] *)
Definition telemetry_insert_one (data : MetricRecord) : M nat :=
  oid ← ObjectId;
  telemetry_store (mkMetricRecord (Some oid) (m_metric_type data)
                     (m_value data) (m_metadata data) (m_timestamp data)) ;;
  mret oid.

(** [self.alerts.insert_one(alert_data)] *)
Definition alerts_insert_one (data : AlertRecord) : M nat :=
  oid ← ObjectId;
  alerts_store (mkAlertRecord (Some oid) (a_alert_type data)
                  (a_severity data) (a_data data) (a_timestamp data)
                  (a_resolved data)) ;;
  mret oid.

(** [self.telemetry.find({"timestamp": {"$gte": cutoff}})] *)
Definition telemetry_find_gte (cutoff : Q) : M (list MetricRecord) :=
  bad ← storage_fault;
  if bad : bool then raise PyMongoError
  else
    db ← gets mongo;
    mret (filter (fun d => Is_true (Qle_bool cutoff (m_timestamp d)))
                 (Store.telemetry db)).

(** [self.alerts.find({"timestamp": {"$gte": cutoff}})] *)
Definition alerts_find_gte (cutoff : Q) : M (list AlertRecord) :=
  bad ← storage_fault;
  if bad : bool then raise PyMongoError
  else
    db ← gets mongo;
    mret (filter (fun d => Is_true (Qle_bool cutoff (a_timestamp d)))
                 (Store.alerts db)).

(** [cursor.limit(n)]: 0 means no limit, a negative [n] counts as [-n]. *)
Definition limit {A} (n : Z) (l : list A) : list A :=
  if n =? 0 then l else take (Z.abs_nat n) l.

(** [self.alerts.find(query).sort("timestamp", DESCENDING).limit(limit)]
    with the query [{}] *)
Definition alerts_find_sorted (n : Z) : M (list AlertRecord) :=
  bad ← storage_fault;
  if bad : bool then raise PyMongoError
  else
    db ← gets mongo;
    mret (limit n
            (merge_sort
               (fun x y => Is_true (Qle_bool (a_timestamp y) (a_timestamp x)))
               (Store.alerts db))).

(** [MongoDBHandler()], as [get_mongo_handler] calls it when the module
    has no handler yet: the constructor pings the server and raises when
    that fails. *)
Definition get_mongo_handler : M unit :=
  bad ← storage_fault;
  if bad : bool then
    logger ERROR "Failed to connect to MongoDB" ;; raise ConnectionFailure
  else logger INFO "Successfully connected to MongoDB".

(** [save_telemetry]: the data always carries a datetime [timestamp], so
    neither timestamp branch applies. *)
Definition save_telemetry (data : MetricRecord) : M string :=
  try_except
    (inserted_id ← telemetry_insert_one data;
     mret (str_id inserted_id))
    is_PyMongoError
    (fun e => logger ERROR "Failed to save telemetry" ;; raise e).

Definition save_alert (alert_type severity : string) (data : pydict)
  : M string :=
  try_except
    (now ← time_time;
     let alert_data := mkAlertRecord None alert_type severity data now false in
     inserted_id ← alerts_insert_one alert_data;
     mret (str_id inserted_id))
    is_PyMongoError
    (fun e => logger ERROR "Failed to save alert" ;; raise e).

(** [get_alerts(limit=limit)], with [resolved=None]; the [_id] of a
    document stays the number that [str] would render. *)
Definition get_alerts (n : Z) : M (list AlertRecord) :=
  try_except
    (alerts_find_sorted n)
    is_PyMongoError
    (fun e => logger ERROR "Failed to get alerts" ;; mret []).

End MongoDBHandler.

(** ** [telemetry_manager_mongodb.py] *)

(** The built-in thresholds of [__init__] (both managers). *)
Definition default_thresholds : gmap string Q :=
  {[ "latency" := 3000%Q; "cost" := (5 # 1000)%Q; "error_rate" := (1 # 10)%Q;
     "cpu_usage" := 80%Q; "memory_usage" := 85%Q ]}.

(** [severity_map.get(alert_type, 'info')] in [send_alert] (both managers). *)
Definition severity_map_get (alert_type : string) : string :=
  if String.eqb alert_type "high_error_rate" then "critical"
  else if String.eqb alert_type "critical_failure" then "critical"
  else if String.eqb alert_type "high_latency" then "warning"
  else if String.eqb alert_type "high_cost" then "warning"
  else "info".

(** [self.metrics[...] += ...] *)
Definition add_total_operations (n : Z) (m : Metrics) : Metrics :=
  mkMetrics (error_count m) (total_operations m + n) (total_latency m)
            (total_cost m) (start_time m).
Definition add_total_latency (x : Q) (m : Metrics) : Metrics :=
  mkMetrics (error_count m) (total_operations m) (total_latency m + x)%Q
            (total_cost m) (start_time m).
Definition add_total_cost (x : Q) (m : Metrics) : Metrics :=
  mkMetrics (error_count m) (total_operations m) (total_latency m)
            (total_cost m + x)%Q (start_time m).
Definition add_error_count (n : Z) (m : Metrics) : Metrics :=
  mkMetrics (error_count m + n) (total_operations m) (total_latency m)
            (total_cost m) (start_time m).

(** [len([a for a in self.alerts if not a.resolved])] *)
Definition count_active (l : list Alert) : Z :=
  Z.of_nat (length (filter (fun a => Is_true (negb (resolved a))) l)).

Module TelemetryManagerMongoDB.

(** [_load_config]: the loaded dict is represented by its ['thresholds']
    entry, [{}] by [None]. *)
Definition _load_config (config_path : option string)
  : M (option (gmap string Q)) :=
  files ← gets fs;
  match config_path with
  | Some path =>
      if negb (String.eqb path "") && bool_decide (is_Some (files !! path))
      then
        try_except
          (match files !! path with
           | Some (JSONObject thresholds) => mret thresholds
           | Some InvalidJSON => raise JSONDecodeError
           | _ => raise OSError
           end)
          Exception
          (fun e => logger WARNING "Failed to load config" ;; mret None)
      else mret None
  | None => mret None
  end.

Definition __init__ (config_path : option string) : M unit :=
  config ← _load_config config_path;
  modify (set_alert_thresholds (default default_thresholds config)) ;;
  now ← time_time;
  modify (set_metrics (mkMetrics 0 0 0 0 now)) ;;
  modify (set_alerts []) ;;
  modify (set_lock false) ;;
  MongoDBHandler.get_mongo_handler.

Definition record_metric (metric_type : string) (value : Q)
           (metadata : option pydict) : M string :=
  try_except
    (now ← time_time;
     let metric_data :=
       mkMetricRecord None metric_type value (default [] metadata) now in
     metric_id ← MongoDBHandler.save_telemetry metric_data;
     logger DEBUG "Metric recorded" ;;
     mret metric_id)
    Exception
    (fun e => logger ERROR "Failed to record metric" ;; mret "").

Definition send_alert (alert_type : string) (data : pydict) : M unit :=
  with_lock (
    let severity := severity_map_get alert_type in
    now ← time_time;
    let alert := mkAlert now alert_type severity data false in
    modify (fun w => set_alerts (alerts w ++ [alert]) w) ;;
    try_except
      (alert_id ← MongoDBHandler.save_alert alert_type severity data;
       logger INFO "Alert saved to MongoDB")
      Exception
      (fun e => logger ERROR "Failed to save alert to MongoDB") ;;
    logger WARNING "ALERT" ;;
    webhook_url ← gets ALERT_WEBHOOK;
    match webhook_url with
    | Some url =>
        if negb (String.eqb url "") then
          try_except (requests_post url alert) Exception
            (fun e => logger ERROR "Failed to send webhook alert")
        else mret ()
    | None => mret ()
    end).

Definition record_error (error_type : string) (details : option pydict)
  : M unit :=
  with_lock (
    modify (fun w => set_metrics (add_error_count 1 (metrics w)) w) ;;
    m ← gets metrics;
    let error_data :=
      [("error_type", PyStr error_type);
       ("details", PyDict (default [] details));
       ("total_errors", PyInt (error_count m))] in
    record_metric "error" 1 (Some error_data) ;;
    m ← gets metrics;
    error_rate ← truediv (inject_Z (error_count m))
                         (inject_Z (Z.max 1 (total_operations m)));
    thresholds ← gets alert_thresholds;
    threshold ← getitem thresholds "error_rate";
    if Qgt_bool error_rate threshold then
      send_alert "high_error_rate"
        [("error_rate", PyFloat error_rate);
         ("total_errors", PyInt (error_count m));
         ("total_operations", PyInt (total_operations m))]
    else mret ()).

(** [_check_alert_conditions(metrics)]; the dict its one caller passes has
    the keys [latency_ms], [cost_usd] and [success]. *)
Definition _check_alert_conditions (latency_ms cost_usd : Q)
           (success : bool) : M unit :=
  thresholds ← gets alert_thresholds;
  latency ← getitem thresholds "latency";
  let alerts1 :=
    if Qgt_bool latency_ms latency then [("high_latency", latency_ms)]
    else [] in
  cost ← getitem thresholds "cost";
  let alerts2 :=
    if Qgt_bool cost_usd cost then (alerts1 ++ [("high_cost", cost_usd)])%list
    else alerts1 in
  for_each alerts2 (fun '(alert_type, value) =>
    thresholds ← gets alert_thresholds;
    threshold ← getitem thresholds alert_type;
    send_alert alert_type
      [("value", PyFloat value); ("threshold", PyFloat threshold)]).

Definition record_operation (latency_ms cost_usd : Q) (success : bool)
  : M unit :=
  with_lock (
    modify (fun w => set_metrics (add_total_operations 1 (metrics w)) w) ;;
    modify (fun w => set_metrics (add_total_latency latency_ms (metrics w)) w) ;;
    modify (fun w => set_metrics (add_total_cost cost_usd (metrics w)) w) ;;
    (if negb success then
       modify (fun w => set_metrics (add_error_count 1 (metrics w)) w) ;;
       record_error "general" None
     else mret ()) ;;
    record_metric "latency" latency_ms None ;;
    (if Qgt_bool cost_usd 0 then
       record_metric "cost" cost_usd None ;; mret ()
     else mret ()) ;;
    _check_alert_conditions latency_ms cost_usd success).

Definition get_system_health : M HealthData :=
  with_lock (
    now ← time_time;
    m ← gets metrics;
    let uptime := (now - start_time m)%Q in
    error_rate ← truediv (inject_Z (error_count m))
                         (inject_Z (Z.max 1 (total_operations m)));
    avg_latency ← truediv (total_latency m)
                          (inject_Z (Z.max 1 (total_operations m)));
    active ← gets (fun w => count_active (alerts w));
    stamp ← time_time;
    (* [insert_one] sets [health_data['_id']] on this very dict before it
       contacts the server, so the dict returned below carries it *)
    oid ← MongoDBHandler.ObjectId;
    let health_data :=
      mkHealthData (Some oid) uptime (total_operations m) (error_count m)
                   error_rate avg_latency (total_cost m) active (Some stamp)
    in
    try_except
      (MongoDBHandler.system_health_store health_data)
      Exception
      (fun e => logger ERROR "Failed to save system health") ;;
    mret health_data).

Definition get_recent_alerts (n : Z) : M (list AlertRecord) :=
  try_except
    (MongoDBHandler.get_alerts n)
    Exception
    (fun e => logger ERROR "Failed to get recent alerts" ;; mret []).

(** One round of the loop over [metrics_data]. *)
Definition add_metric (metrics_summary : gmap string Bucket)
           (metric : MetricRecord) : gmap string Bucket :=
  let metric_type := m_metric_type metric in
  let metrics_summary :=
    match metrics_summary !! metric_type with
    | None => <[metric_type := mkBucket 0 0 0 PosInf NegInf]> metrics_summary
    | Some _ => metrics_summary
    end in
  let value := m_value metric in
  alter (fun b => mkBucket (b_count b + 1) (b_sum b + value)%Q (b_avg b)
                           (xmin (b_min b) value) (xmax (b_max b) value))
        metric_type metrics_summary.

(** The loop that fills in the averages. *)
Definition set_avg (b : Bucket) : Bucket :=
  if b_count b >? 0 then
    mkBucket (b_count b) (b_sum b) (b_sum b / inject_Z (b_count b))%Q
             (b_min b) (b_max b)
  else b.

(** One round of the loop over [alerts_data]. *)
Definition add_alert (alerts_summary : gmap string Z) (alert : AlertRecord)
  : gmap string Z :=
  let severity := a_severity alert in
  <[severity := default 0 (alerts_summary !! severity) + 1]> alerts_summary.

(** [get_metrics_summary(hours)]; [None] stands for the [{}] of the
    [except] branch.  [utcnow().timestamp()] followed by [fromtimestamp]
    reads the naive UTC time as local time and back, which cancels. *)
Definition get_metrics_summary (hours : Z) : M (option Summary) :=
  try_except
    (now ← time_time;
     let cutoff_time := (now - inject_Z (hours * 3600))%Q in
     metrics_data ← MongoDBHandler.telemetry_find_gte cutoff_time;
     let metrics_summary := foldl add_metric ∅ metrics_data in
     let metrics_summary := set_avg <$> metrics_summary in
     alerts_data ← MongoDBHandler.alerts_find_gte cutoff_time;
     let alerts_summary := foldl add_alert ∅ alerts_data in
     mret (Some (mkSummary metrics_summary alerts_summary hours
                   (Some (map_fold (fun _ b acc => acc + b_count b) 0
                                   metrics_summary)))))
    Exception
    (fun e => logger ERROR "Failed to get metrics summary" ;; mret None).

End TelemetryManagerMongoDB.

(** ** [old_sqlite_system/telemetry_manager.py] *)

Module TelemetryManager.

(** One entry of the summary's [metrics]: [{'avg': ..., 'count': ...}] *)
Record AvgCount : Type := mkAvgCount { avg : Q; count : Z }.

(** The dict returned by [get_metrics_summary]. *)
Record Summary : Type := mkSummary {
  s_metrics : gmap string AvgCount;
  s_alerts : gmap string Z;
  time_range_hours : Z
}.

(** [with sqlite3.connect(self.db_path) as conn: conn.execute("INSERT INTO
    metrics ...")]; the row id is the table's [AUTOINCREMENT], the metadata
    column holds [json.dumps(metadata)], represented by the dict it
    encodes. *)
Definition metrics_insert (stamp : Q) (metric_type : string) (value : Q)
           (metadata : pydict) : M unit :=
  bad ← storage_fault;
  if bad : bool then raise SqliteError
  else modify (fun w =>
    set_next_id (S (next_id w))
      (set_mongo
         (Store.mk (Store.telemetry (mongo w) ++
                      [mkMetricRecord (Some (next_id w)) metric_type value
                                      metadata stamp])
                   (Store.alerts (mongo w))
                   (Store.system_health (mongo w))) w)).

(** [conn.execute("INSERT INTO alerts ...")]; [resolved] defaults to 0. *)
Definition alerts_insert (alert : Alert) : M unit :=
  bad ← storage_fault;
  if bad : bool then raise SqliteError
  else modify (fun w =>
    set_next_id (S (next_id w))
      (set_mongo
         (Store.mk (Store.telemetry (mongo w))
                   (Store.alerts (mongo w) ++
                      [mkAlertRecord (Some (next_id w)) (alert_type alert)
                                     (severity alert) (data alert)
                                     (timestamp alert) false])
                   (Store.system_health (mongo w))) w)).

(** [SELECT ... FROM metrics WHERE timestamp > ?] *)
Definition metrics_select_gt (cutoff : Q) : M (list MetricRecord) :=
  bad ← storage_fault;
  if bad : bool then raise SqliteError
  else
    db ← gets mongo;
    mret (filter (fun d => Is_true (Qgt_bool (m_timestamp d) cutoff))
                 (Store.telemetry db)).

(** [SELECT ... FROM alerts WHERE timestamp > ?] on the open connection *)
Definition alerts_select_gt (cutoff : Q) : M (list AlertRecord) :=
  db ← gets mongo;
  mret (filter (fun d => Is_true (Qgt_bool (a_timestamp d) cutoff))
               (Store.alerts db)).

(** [SELECT * FROM alerts ORDER BY timestamp DESC LIMIT ?]; a negative
    [LIMIT] is no limit. *)
Definition alerts_select_recent (n : Z) : M (list AlertRecord) :=
  bad ← storage_fault;
  if bad : bool then raise SqliteError
  else
    db ← gets mongo;
    let sorted :=
      merge_sort
        (fun x y => Is_true (Qle_bool (a_timestamp y) (a_timestamp x)))
        (Store.alerts db) in
    mret (if n <? 0 then sorted else take (Z.to_nat n) sorted).

Definition _load_config (config_path : option string)
  : M (option (gmap string Q)) :=
  files ← gets fs;
  match config_path with
  | Some path =>
      if negb (String.eqb path "") && bool_decide (is_Some (files !! path))
      then
        match files !! path with
        | Some (JSONObject thresholds) => mret thresholds
        | Some InvalidJSON => raise JSONDecodeError
        | _ => raise OSError
        end
      else mret None
  | None => mret None
  end.

(** [_init_database]: creates the directory, the file and the tables. *)
Definition _init_database : M unit :=
  bad ← storage_fault;
  if bad : bool then raise SqliteError else mret ().

Definition __init__ (config_path : option string) : M unit :=
  config ← _load_config config_path;
  modify (set_alert_thresholds (default default_thresholds config)) ;;
  now ← time_time;
  modify (set_metrics (mkMetrics 0 0 0 0 now)) ;;
  modify (set_alerts []) ;;
  modify (set_lock false) ;;
  _init_database.

Definition record_metric (metric_type : string) (value : Q)
           (metadata : option pydict) : M unit :=
  with_lock (
    now ← time_time;
    metrics_insert now metric_type value (default [] metadata)).

Definition send_alert (alert_type : string) (data : pydict) : M unit :=
  with_lock (
    let severity := severity_map_get alert_type in
    now ← time_time;
    let alert := mkAlert now alert_type severity data false in
    modify (fun w => set_alerts (alerts w ++ [alert]) w) ;;
    alerts_insert alert ;;
    logger WARNING "ALERT" ;;
    webhook_url ← gets ALERT_WEBHOOK;
    match webhook_url with
    | Some url =>
        if negb (String.eqb url "") then
          try_except (requests_post url alert) Exception
            (fun e => logger ERROR "Failed to send webhook alert")
        else mret ()
    | None => mret ()
    end).

Definition record_error (error_type : string) (details : option pydict)
  : M unit :=
  with_lock (
    modify (fun w => set_metrics (add_error_count 1 (metrics w)) w) ;;
    m ← gets metrics;
    let error_data :=
      [("error_type", PyStr error_type);
       ("details", PyDict (default [] details));
       ("total_errors", PyInt (error_count m))] in
    record_metric "error" 1 (Some error_data) ;;
    m ← gets metrics;
    error_rate ← truediv (inject_Z (error_count m))
                         (inject_Z (Z.max 1 (total_operations m)));
    thresholds ← gets alert_thresholds;
    threshold ← getitem thresholds "error_rate";
    if Qgt_bool error_rate threshold then
      send_alert "high_error_rate"
        [("error_rate", PyFloat error_rate);
         ("total_errors", PyInt (error_count m));
         ("total_operations", PyInt (total_operations m))]
    else mret ()).

Definition _check_alert_conditions (latency_ms cost_usd : Q)
           (success : bool) : M unit :=
  thresholds ← gets alert_thresholds;
  latency ← getitem thresholds "latency";
  let alerts1 :=
    if Qgt_bool latency_ms latency then [("high_latency", latency_ms)]
    else [] in
  cost ← getitem thresholds "cost";
  let alerts2 :=
    if Qgt_bool cost_usd cost then (alerts1 ++ [("high_cost", cost_usd)])%list
    else alerts1 in
  for_each alerts2 (fun '(alert_type, value) =>
    thresholds ← gets alert_thresholds;
    threshold ← getitem thresholds alert_type;
    send_alert alert_type
      [("value", PyFloat value); ("threshold", PyFloat threshold)]).

Definition record_operation (latency_ms cost_usd : Q) (success : bool)
  : M unit :=
  with_lock (
    modify (fun w => set_metrics (add_total_operations 1 (metrics w)) w) ;;
    modify (fun w => set_metrics (add_total_latency latency_ms (metrics w)) w) ;;
    modify (fun w => set_metrics (add_total_cost cost_usd (metrics w)) w) ;;
    (if negb success then
       modify (fun w => set_metrics (add_error_count 1 (metrics w)) w) ;;
       record_error "general" None
     else mret ()) ;;
    record_metric "latency" latency_ms None ;;
    (if Qgt_bool cost_usd 0 then record_metric "cost" cost_usd None
     else mret ()) ;;
    _check_alert_conditions latency_ms cost_usd success).

Definition get_system_health : M HealthData :=
  with_lock (
    now ← time_time;
    m ← gets metrics;
    let uptime := (now - start_time m)%Q in
    error_rate ← truediv (inject_Z (error_count m))
                         (inject_Z (Z.max 1 (total_operations m)));
    avg_latency ← truediv (total_latency m)
                          (inject_Z (Z.max 1 (total_operations m)));
    active ← gets (fun w => count_active (alerts w));
    mret (mkHealthData None uptime (total_operations m) (error_count m)
                       error_rate avg_latency (total_cost m) active None)).

Definition get_recent_alerts (n : Z) : M (list AlertRecord) :=
  alerts_select_recent n.

(** [GROUP BY metric_type] with [AVG(value)] and [COUNT( * )]: the sums and
    counts per type first, the averages from them. *)
Definition group_metric (acc : gmap string (Q * Z)) (row : MetricRecord)
  : gmap string (Q * Z) :=
  let '(total, n) := default (0%Q, 0) (acc !! m_metric_type row) in
  <[m_metric_type row := ((total + m_value row)%Q, n + 1)]> acc.

(** [GROUP BY severity] with [COUNT( * )] *)
Definition group_alert (acc : gmap string Z) (row : AlertRecord)
  : gmap string Z :=
  <[a_severity row := default 0 (acc !! a_severity row) + 1]> acc.

Definition get_metrics_summary (hours : Z) : M Summary :=
  now ← time_time;
  let cutoff_time := (now - inject_Z (hours * 3600))%Q in
  rows ← metrics_select_gt cutoff_time;
  let metrics_summary :=
    (fun '(total, n) => mkAvgCount (total / inject_Z n)%Q n)
      <$> foldl group_metric ∅ rows in
  rows ← alerts_select_gt cutoff_time;
  let alerts_summary := foldl group_alert ∅ rows in
  mret (mkSummary metrics_summary alerts_summary hours).

End TelemetryManager.

(** ** Concurrent callers

    Every statement of [record_operation] runs inside [with self.lock], and
    every other method that touches the counters takes the same lock, so a
    caller that has the lock runs undisturbed until it returns, raises, or
    stops at an acquisition of its own.  A caller that has not started can
    start only while the lock is free. *)

Inductive caller : Type :=
| Waiting (latency_ms cost_usd : Q) (success : bool)   (* before [acquire] *)
| Done                                                 (* returned *)
| Failed (e : exn)                                     (* raised *)
| Stuck.                                               (* waits for itself *)

Definition after_call (o : outcome unit) : caller :=
  match o with
  | Returned _ _ => Done
  | Raised e _ => Failed e
  | Blocked _ => Stuck
  end.

(** One scheduling step: caller [i] gets the lock and runs. *)
Inductive sched : list caller * world -> list caller * world -> Prop :=
| sched_run (cs : list caller) (w : world) (i : nat)
            (latency_ms cost_usd : Q) (success : bool) :
    cs !! i = Some (Waiting latency_ms cost_usd success) ->
    lock w = false ->
    sched (cs, w)
          (<[i := after_call (TelemetryManagerMongoDB.record_operation
                                latency_ms cost_usd success w)]> cs,
           final (TelemetryManagerMongoDB.record_operation
                    latency_ms cost_usd success w)).

(** The configurations a set of callers can reach. *)
Inductive reachable (c0 : list caller * world) : list caller * world -> Prop :=
| reach_start : reachable c0 c0
| reach_step c c' : reachable c0 c -> sched c c' -> reachable c0 c'.

(** The world before any manager exists: nothing stored, no faults, no
    configuration files, no webhook; the clock reads 1000. *)
Definition boot : world :=
  mkWorld ∅ (mkMetrics 0 0 0 0 0) [] false Store.empty 0%nat [] 1000%Q ∅ None
          [] [] [].

(** A manager just constructed with [TelemetryManagerMongoDB()]. *)
Definition fresh : world := final (TelemetryManagerMongoDB.__init__ None boot).

(** The same world with the clock moved on by [d] seconds. *)
Definition later (d : Q) (w : world) : world := set_clock (clock w + d)%Q w.

(** A manager just constructed with [TelemetryManager()]. *)
Definition sqlite_fresh : world := final (TelemetryManager.__init__ None boot).

(** A configuration file whose [thresholds] also have an entry per alert
    type, and a manager constructed from it. *)
Definition alerting_thresholds : gmap string Q :=
  <["high_latency" := 3000%Q]> (<["high_cost" := (5 # 1000)%Q]> default_thresholds).

Definition configured : world :=
  final (TelemetryManagerMongoDB.__init__ (Some "telemetry.json")
           (set_fs {["telemetry.json" := JSONObject (Some alerting_thresholds)]}
                   boot)).

(** ** Vocabulary of the properties *)

(** The next [n] storage operations of [w] succeed. *)
Definition no_fault (n : nat) (w : world) : Prop := true ∉ take n (faults w).

(** The attributes of [self] that the methods share are the same in [w']
    as in [w]. *)
Definition same_self (w w' : world) : Prop :=
  lock w' = lock w /\ metrics w' = metrics w /\ alerts w' = alerts w /\
  alert_thresholds w' = alert_thresholds w /\
  ALERT_WEBHOOK w' = ALERT_WEBHOOK w.

(** The ways a call made while the lock is held can end: it returns, it
    raises a [KeyError], or it waits for the lock; [self] is as before. *)
Inductive quiet (w : world) : outcome unit -> Prop :=
| quiet_returned w' : same_self w w' -> quiet w (Returned () w')
| quiet_raised k w' : same_self w w' -> quiet w (Raised (KeyError k) w')
| quiet_blocked w' : same_self w w' -> quiet w (Blocked w').

(** No configuration source is given, or the file it names is absent. *)
Definition no_config (w : world) (config_path : option string) : Prop :=
  config_path = None \/
  exists path, config_path = Some path /\ fs w !! path = None.

(** The configured file is there, but opening or parsing it fails. *)
Definition load_fails (w : world) (config_path : option string) : Prop :=
  exists path, config_path = Some path /\ path <> "" /\
    (fs w !! path = Some Unreadable \/ fs w !! path = Some InvalidJSON).


(** The snapshot [get_system_health] builds in [w]. *)
Definition snapshot (w : world) : HealthData :=
  let m := metrics w in
  mkHealthData (Some (next_id w)) (clock w - start_time m)%Q
    (total_operations m) (error_count m)
    (inject_Z (error_count m) / inject_Z (Z.max 1 (total_operations m)))%Q
    (total_latency m / inject_Z (Z.max 1 (total_operations m)))%Q
    (total_cost m) (count_active (alerts w)) (Some (clock w)).

(** ** Use of the manager over time

    What can happen to a MongoDB-backed manager once it is constructed: one
    of its public methods is called, or time passes. *)

Inductive event : Type :=
| RecordMetric (metric_type : string) (value : Q) (metadata : option pydict)
| RecordOperation (latency_ms cost_usd : Q) (success : bool)
| RecordError (error_type : string) (details : option pydict)
| SendAlert (alert_type : string) (data : pydict)
| GetSystemHealth
| GetRecentAlerts (n : Z)
| GetMetricsSummary (hours : Z)
| Wait (seconds : Q).

(** The world after an event, however the call ends. *)
Definition after (ev : event) (w : world) : world :=
  match ev with
  | RecordMetric metric_type value metadata =>
      final (TelemetryManagerMongoDB.record_metric metric_type value metadata w)
  | RecordOperation latency_ms cost_usd success =>
      final (TelemetryManagerMongoDB.record_operation latency_ms cost_usd
                                                      success w)
  | RecordError error_type details =>
      final (TelemetryManagerMongoDB.record_error error_type details w)
  | SendAlert alert_type data =>
      final (TelemetryManagerMongoDB.send_alert alert_type data w)
  | GetSystemHealth => final (TelemetryManagerMongoDB.get_system_health w)
  | GetRecentAlerts n => final (TelemetryManagerMongoDB.get_recent_alerts n w)
  | GetMetricsSummary hours =>
      final (TelemetryManagerMongoDB.get_metrics_summary hours w)
  | Wait seconds => later seconds w
  end.

Definition after_all (evs : list event) (w : world) : world :=
  foldl (fun w ev => after ev w) w evs.

(** A method keeps the relation [R] when the world it leaves, whether it
    returns, raises or blocks, is related to the world it found. *)
Definition keeps (R : relation world) {A} (m : M A) : Prop :=
  forall w, R w (final (m w)).

(** The elementary changes the methods make to the world.  A relation that
    is a preorder and holds across each of them holds across every method
    (see [keeps_event]). *)
Class Frame (R : relation world) : Prop := {
  frame_preorder :: PreOrder R;
  frame_lock w b : R w (set_lock b w);
  frame_faults w f : R w (set_faults f w);
  frame_net_faults w f : R w (set_net_faults f w);
  frame_next_id w : R w (set_next_id (S (next_id w)) w);
  frame_clock w t : R w (set_clock t w);
  frame_log w line : R w (set_log (log w ++ [line]) w);
  frame_posted w p : R w (set_posted (posted w ++ [p]) w);
  frame_count_operation w :
    R w (set_metrics (add_total_operations 1 (metrics w)) w);
  frame_count_error w :
    R w (set_metrics (add_error_count 1 (metrics w)) w);
  frame_add_latency w x :
    R w (set_metrics (add_total_latency x (metrics w)) w);
  frame_add_cost w x :
    R w (set_metrics (add_total_cost x (metrics w)) w);
  frame_alert w t alert_type data :
    R w (set_alerts
           (alerts w ++ [mkAlert t alert_type (severity_map_get alert_type)
                                 data false]) w);
  frame_store_metric w doc :
    R w (set_mongo (Store.mk (Store.telemetry (mongo w) ++ [doc])
                             (Store.alerts (mongo w))
                             (Store.system_health (mongo w))) w);
  frame_store_alert w oid t alert_type data :
    R w (set_mongo
           (Store.mk (Store.telemetry (mongo w))
                     (Store.alerts (mongo w) ++
                        [mkAlertRecord (Some oid) alert_type
                           (severity_map_get alert_type) data t false])
                     (Store.system_health (mongo w))) w);
  frame_store_health w doc :
    R w (set_mongo (Store.mk (Store.telemetry (mongo w))
                             (Store.alerts (mongo w))
                             (Store.system_health (mongo w) ++ [doc])) w)
}.

(** Nothing that was stored or kept in memory is changed or removed. *)
Definition append_only (w w' : world) : Prop :=
  alerts w `prefix_of` alerts w' /\
  Store.telemetry (mongo w) `prefix_of` Store.telemetry (mongo w') /\
  Store.alerts (mongo w) `prefix_of` Store.alerts (mongo w') /\
  Store.system_health (mongo w) `prefix_of` Store.system_health (mongo w').

(** The thresholds and the start time stay, the two counters only go up. *)
Definition settled (w w' : world) : Prop :=
  alert_thresholds w' = alert_thresholds w /\
  start_time (metrics w') = start_time (metrics w) /\
  error_count (metrics w) <= error_count (metrics w') /\
  total_operations (metrics w) <= total_operations (metrics w').

(** Every alert in memory is unresolved and has the severity of its type,
    and so has every alert document in the store. *)
Definition alerts_wf (w : world) : Prop :=
  Forall (fun a => resolved a = false /\
                   severity a = severity_map_get (alert_type a)) (alerts w) /\
  Forall (fun d => a_resolved d = false /\
                   a_severity d = severity_map_get (a_alert_type d))
         (Store.alerts (mongo w)).

(** A caller that reports a batch of successful operations, one call for
    each pair of latency and cost. *)
Definition record_operations (ops : list (Q * Q)) : M unit :=
  for_each ops (fun '(latency_ms, cost_usd) =>
    TelemetryManagerMongoDB.record_operation latency_ms cost_usd true).

(** Whether the next storage operation of [w] goes through (a write is
    accepted, a read is answered). *)
Definition store_accepts (w : world) : bool :=
  match faults w with
  | true :: _ => false
  | _ => true
  end.

(** Where the next alert of [w] is delivered: the webhook, if one is
    configured and the request goes through. *)
Definition webhook_delivery (w : world) : option string :=
  match ALERT_WEBHOOK w with
  | Some url =>
      if String.eqb url "" then None
      else match net_faults w with
           | true :: _ => None
           | _ => Some url
           end
  | None => None
  end.


Definition alert_window (hours : Z) (w : world) : list AlertRecord :=
  filter (fun d => Is_true (Qle_bool (clock w - inject_Z (hours * 3600))
                                     (a_timestamp d)))
         (Store.alerts (mongo w)).





(** ** More of [app/db/mongo_handler.py] and its use in [app_mongodb.py] *)

(** The order of [sort("timestamp", DESCENDING)] on the health documents; a
    document without the field sorts as the oldest. *)
Definition stamp_le (a b : option Q) : bool :=
  match a, b with
  | None, _ => true
  | Some _, None => false
  | Some x, Some y => Qle_bool x y
  end.

Module Handler.

(** [MongoDBHandler.get_system_health]: the newest document of the
    [system_health] collection, [None] for the [{}] of an empty collection
    or a failed read. *)
Definition get_system_health : M (option HealthData) :=
  try_except
    (bad ← storage_fault;
     if bad : bool then raise PyMongoError
     else
       db ← gets mongo;
       let recent_health :=
         take 1 (merge_sort
                   (fun x y => Is_true (stamp_le (h_timestamp y)
                                                 (h_timestamp x)))
                   (Store.system_health db)) in
       match recent_health with
       | newest :: _ => mret (Some newest)
       | [] => mret None
       end)
    is_PyMongoError
    (fun e => logger ERROR "Failed to get system health" ;; mret None).

End Handler.

(** [str.lower()] and [needle in s], for strings of ASCII characters. *)
Definition lower_char (c : Ascii.ascii) : Ascii.ascii :=
  let n := Ascii.nat_of_ascii c in
  if ((65 <=? n) && (n <=? 90))%nat then Ascii.ascii_of_nat (n + 32) else c.

Fixpoint lower (s : string) : string :=
  match s with
  | EmptyString => EmptyString
  | String c s' => String (lower_char c) (lower s')
  end.

Fixpoint contains (needle s : string) : bool :=
  String.prefix needle s ||
  match s with
  | EmptyString => false
  | String _ s' => contains needle s'
  end.

Module app_mongodb.

(** [log_event(event_type, data)] of [app_mongodb.py]: the event is logged
    and saved as an alert, past the telemetry manager. *)
Definition log_event (event_type : string) (data : pydict) : M unit :=
  logger INFO "EVENT" ;;
  try_except
    (let severity :=
       if contains "alert" (lower event_type) then "warning" else "info" in
     MongoDBHandler.save_alert event_type severity data ;;
     mret ())
    Exception
    (fun e => logger ERROR "Failed to save alert").

End app_mongodb.

(** * Properties *)

(** ** Running the monad *)

Ltac unfold_monad :=
  unfold try_except, with_lock, storage_fault, time_time, logger, modify,
    gets, raise, getitem, Exception, mbind, M_bind, mret, M_ret in *.

Ltac unfold_handler :=
  unfold MongoDBHandler.save_telemetry, MongoDBHandler.save_alert,
    MongoDBHandler.get_alerts, MongoDBHandler.telemetry_insert_one,
    MongoDBHandler.alerts_insert_one, MongoDBHandler.telemetry_store,
    MongoDBHandler.alerts_store, MongoDBHandler.system_health_store,
    MongoDBHandler.telemetry_find_gte, MongoDBHandler.alerts_find_gte,
    MongoDBHandler.alerts_find_sorted, MongoDBHandler.get_mongo_handler,
    MongoDBHandler.ObjectId in *.

Lemma no_fault_head n w : no_fault (S n) w -> head (faults w) <> Some true.
Proof.
  unfold no_fault. destruct (faults w) as [|[] fs']; cbn; try congruence.
  intros H _. apply H. left.
Qed.

Lemma no_fault_tail n w b fs' :
  faults w = b :: fs' -> no_fault (S n) w -> b = false /\ true ∉ take n fs'.
Proof.
  unfold no_fault. intros ->. cbn. intros H. split.
  - destruct b; [|reflexivity]. exfalso. apply H. left.
  - intros Hin. apply H. right. exact Hin.
Qed.

(** ** Arithmetic of the rates *)

Lemma floor_nonzero (t : Z) : Qeq_bool (inject_Z (Z.max 1 t)) 0 = false.
Proof.
  destruct (Qeq_bool (inject_Z (Z.max 1 t)) 0) eqn:E; [|reflexivity].
  apply Qeq_bool_eq in E. unfold Qeq in E. cbn in E. lia.
Qed.

Lemma truediv_floor (a : Q) (t : Z) (w : world) :
  truediv a (inject_Z (Z.max 1 t)) w =
  Returned (a / inject_Z (Z.max 1 t))%Q w.
Proof. unfold truediv. rewrite floor_nonzero. reflexivity. Qed.

(** ** The methods one by one *)

(** [record_metric] always returns, and touches neither the lock nor the
    counters; the identifier is empty exactly when the write failed. *)
Lemma record_metric_spec mt v md w :
  exists id w',
    TelemetryManagerMongoDB.record_metric mt v md w = Returned id w' /\
    same_self w w' /\
    (head (faults w) = Some true -> id = "" /\ mongo w' = mongo w) /\
    (head (faults w) <> Some true ->
     id = str_id (next_id w) /\
     mongo w' =
       Store.mk (Store.telemetry (mongo w) ++
                   [mkMetricRecord (Some (next_id w)) mt v (default [] md)
                                   (clock w)])
                (Store.alerts (mongo w)) (Store.system_health (mongo w)) /\
     clock w' = clock w).
Proof.
  unfold TelemetryManagerMongoDB.record_metric, same_self.
  unfold_handler. unfold_monad.
  destruct (faults w) as [|[] fs'] eqn:E; cbn; rewrite ?E; cbn;
    eexists _, _; (split; [reflexivity|]); cbn; intuition congruence.
Qed.

Lemma send_alert_held alert_type data w :
  lock w = true ->
  TelemetryManagerMongoDB.send_alert alert_type data w = Blocked w.
Proof.
  intros H. unfold TelemetryManagerMongoDB.send_alert, with_lock.
  rewrite H. reflexivity.
Qed.

Lemma requests_post_cases url a w :
  (exists w', requests_post url a w = Returned () w' /\ same_self w w' /\
              mongo w' = mongo w /\ log w' = log w) \/
  (exists w', requests_post url a w = Raised RequestException w' /\
              same_self w w' /\ mongo w' = mongo w /\ log w' = log w).
Proof.
  unfold requests_post, same_self.
  destruct (net_faults w) as [|[] nf]; [left|right|left];
    eexists; (split; [reflexivity|]); cbn; tauto.
Qed.

(** With the lock free [send_alert] returns, whatever the store and the
    webhook do, and has appended the alert to [self.alerts]. *)
Lemma send_alert_free alert_type data w :
  lock w = false ->
  exists w',
    TelemetryManagerMongoDB.send_alert alert_type data w = Returned () w' /\
    lock w' = false /\ metrics w' = metrics w /\
    alerts w' =
      alerts w ++ [mkAlert (clock w) alert_type (severity_map_get alert_type)
                           data false].
Proof.
  intros H. unfold TelemetryManagerMongoDB.send_alert.
  unfold_handler. unfold_monad. rewrite H. cbn.
  destruct (faults w) as [|[] fs'] eqn:E; cbn; rewrite ?E; cbn;
    (destruct (ALERT_WEBHOOK w) as [url|]; cbn;
     [destruct (String.eqb url ""); cbn|]);
    try (eexists; split; [reflexivity|]; cbn; tauto);
    match goal with
    | |- context [requests_post ?u ?a ?w0] =>
        destruct (requests_post_cases u a w0)
          as [(w1 & -> & (?&?&?&?&?) & _)|(w1 & -> & (?&?&?&?&?) & _)]
    end; cbn in *;
    (eexists; split; [reflexivity|]; cbn; intuition congruence).
Qed.

#[local] Arguments truediv : simpl never.
#[local] Arguments Z.max : simpl never.
#[local] Arguments TelemetryManagerMongoDB.record_metric : simpl never.
#[local] Arguments TelemetryManagerMongoDB.send_alert : simpl never.

(** Use [record_metric_spec] at the call the goal is stuck on. *)
Ltac step_record_metric :=
  match goal with
  | |- context [TelemetryManagerMongoDB.record_metric ?mt ?v ?md ?w0] =>
      let id := fresh "id" in
      let w1 := fresh "w" in
      let Hs := fresh "Hs" in
      destruct (record_metric_spec mt v md w0) as (id & w1 & -> & Hs & _ & _);
      unfold same_self in Hs; cbn in Hs; destruct Hs as (? & ? & ? & ? & ?)
  end.

Lemma same_self_refl w : same_self w w.
Proof. unfold same_self. tauto. Qed.

(** Inside [record_operation] the lock is held, so no alert of
    [_check_alert_conditions] gets past the first line of [send_alert]. *)
Lemma check_alert_conditions_held l c s w :
  lock w = true ->
  quiet w (TelemetryManagerMongoDB._check_alert_conditions l c s w).
Proof.
  intros H. unfold TelemetryManagerMongoDB._check_alert_conditions.
  unfold_monad. cbn.
  destruct (alert_thresholds w !! "latency") as [tl|]; cbn;
    [|constructor; apply same_self_refl].
  destruct (alert_thresholds w !! "cost") as [tc|]; cbn;
    [|constructor; apply same_self_refl].
  destruct (Qgt_bool l tl), (Qgt_bool c tc); cbn; unfold_monad; cbn;
    repeat match goal with
      | |- context [alert_thresholds w !! ?k] =>
          destruct (alert_thresholds w !! k); cbn
      | |- context [TelemetryManagerMongoDB.send_alert ?a ?d w] =>
          rewrite (send_alert_held a d w H); cbn
      end;
    constructor; apply same_self_refl.
Qed.

Lemma record_error_held error_type details w :
  lock w = true ->
  TelemetryManagerMongoDB.record_error error_type details w = Blocked w.
Proof.
  intros H. unfold TelemetryManagerMongoDB.record_error, with_lock.
  rewrite H. reflexivity.
Qed.

(** [record_error] called with the lock free: the division never raises;
    what can go wrong is a missing threshold or the lock. *)
Lemma record_error_free error_type details w :
  lock w = false ->
  exists w',
    (TelemetryManagerMongoDB.record_error error_type details w
       = Returned () w' \/
     (exists k, TelemetryManagerMongoDB.record_error error_type details w
                = Raised (KeyError k) w') \/
     TelemetryManagerMongoDB.record_error error_type details w = Blocked w') /\
    metrics w' = add_error_count 1 (metrics w) /\ alerts w' = alerts w.
Proof.
  intros H. unfold TelemetryManagerMongoDB.record_error.
  unfold_monad. rewrite H. cbn.
  step_record_metric. cbn.
  rewrite truediv_floor.
  destruct (alert_thresholds w0 !! "error_rate") as [t|]; cbn.
  - destruct (Qgt_bool _ t); cbn.
    + rewrite send_alert_held by assumption.
      eexists; split; [right; right; reflexivity|]. split; congruence.
    + eexists; split; [left; reflexivity|]. cbn. split; congruence.
  - eexists; split; [right; left; eexists; reflexivity|]. cbn.
    split; congruence.
Qed.

(** A failed operation never comes back: [record_operation] holds the lock
    when it calls [record_error], which starts by taking the same lock. *)
Lemma record_operation_failure_blocks l c w :
  lock w = false ->
  exists w',
    TelemetryManagerMongoDB.record_operation l c false w = Blocked w' /\
    lock w' = true /\
    error_count (metrics w') = error_count (metrics w) + 1 /\
    total_operations (metrics w') = total_operations (metrics w) + 1 /\
    alerts w' = alerts w /\ mongo w' = mongo w.
Proof.
  intros H. unfold TelemetryManagerMongoDB.record_operation.
  unfold_monad. rewrite H. cbn.
  rewrite ?record_error_held by reflexivity.
  eexists; split; [reflexivity|]. cbn. tauto.
Qed.

(** A successful operation under the held lock of its own. *)
Lemma record_operation_success l c w :
  lock w = false ->
  exists w',
    (TelemetryManagerMongoDB.record_operation l c true w = Returned () w' \/
     (exists k, TelemetryManagerMongoDB.record_operation l c true w
                = Raised (KeyError k) w') \/
     TelemetryManagerMongoDB.record_operation l c true w = Blocked w') /\
    alerts w' = alerts w /\
    error_count (metrics w') = error_count (metrics w) /\
    total_operations (metrics w') = total_operations (metrics w) + 1.
Proof.
  intros H. unfold TelemetryManagerMongoDB.record_operation.
  unfold_monad. rewrite H. cbn.
  step_record_metric. cbn.
  destruct (Qgt_bool c 0); cbn; [step_record_metric; cbn|];
    match goal with
    | |- context [TelemetryManagerMongoDB._check_alert_conditions _ _ _ ?w2] =>
        let Hl := fresh "Hl" in
        assert (Hl : lock w2 = true) by congruence;
        destruct (check_alert_conditions_held l c true w2 Hl)
          as [w' Hs|k w' Hs|w' Hs]
    end;
    destruct Hs as (? & Hm & ? & ? & ?);
    (eexists; split; [eauto|]); cbn; rewrite Hm;
    repeat match goal with
      | E : metrics _ = _ |- _ => rewrite E; clear E
      end; cbn; repeat split; congruence.
Qed.

(** In the SQLite-backed manager [record_metric] takes the lock as well, so
    there no operation at all comes back. *)
Lemma sqlite_record_operation_blocks l c s w :
  lock w = false ->
  exists w',
    TelemetryManager.record_operation l c s w = Blocked w' /\ lock w' = true.
Proof.
  intros H. unfold TelemetryManager.record_operation.
  unfold_monad. rewrite H. cbn.
  destruct s; cbn; eexists; (split; [reflexivity|]); reflexivity.
Qed.

(** [record_operation] never adds to [self.alerts]. *)
Lemma record_operation_alerts l c s w :
  alerts (final (TelemetryManagerMongoDB.record_operation l c s w)) = alerts w.
Proof.
  destruct (lock w) eqn:H.
  - unfold TelemetryManagerMongoDB.record_operation, with_lock.
    rewrite H. reflexivity.
  - destruct s.
    + destruct (record_operation_success l c w H)
        as (w' & [->|[(k & ->)| ->]] & Ha & _); exact Ha.
    + destruct (record_operation_failure_blocks l c w H)
        as (w' & -> & _ & _ & _ & Ha & _); exact Ha.
Qed.

(** What a freshly constructed manager looks like. *)
Lemma fresh_self :
  lock fresh = false /\ metrics fresh = mkMetrics 0 0 0 0 1000 /\
  alerts fresh = [] /\ alert_thresholds fresh = default_thresholds /\
  mongo fresh = Store.empty /\ faults fresh = [].
Proof. repeat split; reflexivity. Qed.

(** A successful operation below every threshold does come back, with the
    operation counted and its latency stored. *)
Example record_operation_success_returns :
  exists w',
    TelemetryManagerMongoDB.record_operation 120 0 true fresh
      = Returned () w' /\
    total_operations (metrics w') = 1 /\ error_count (metrics w') = 0 /\
    (m_value <$> Store.telemetry (mongo w')) = [120%Q] /\ lock w' = false.
Proof. eexists. split; [vm_compute; reflexivity|]. repeat split. Qed.

(** Called on its own, [send_alert] stores the alert and returns. *)
Example send_alert_alone_returns :
  exists w',
    TelemetryManagerMongoDB.send_alert "high_cost" [("value", PyFloat 1)] fresh
      = Returned () w' /\
    (severity <$> alerts w') = ["warning"] /\
    (a_alert_type <$> Store.alerts (mongo w')) = ["high_cost"].
Proof. eexists. split; [vm_compute; reflexivity|]. repeat split. Qed.

(** ** The claims *)

(** C2: after N failed operations on a fresh manager the error rate is 1.0
    and each failure over the threshold has raised one [high_error_rate]
    alert.  The code does not get there: the first failed operation, with
    the default thresholds and whatever its latency and cost, stops in
    [record_error] at the lock that [record_operation] holds.  At that point
    one operation and one error are counted, no alert exists in memory or in
    the store, and the lock stays held. *)
Theorem C2_first_failure_never_returns (latency_ms cost_usd : Q) :
  exists w',
    TelemetryManagerMongoDB.record_operation latency_ms cost_usd false fresh
      = Blocked w' /\
    error_count (metrics w') = 1 /\ total_operations (metrics w') = 1 /\
    alerts w' = [] /\ Store.alerts (mongo w') = [] /\ lock w' = true.
Proof.
  destruct (record_operation_failure_blocks latency_ms cost_usd fresh eq_refl)
    as (w' & Hrun & Hlock & Herr & Htot & Hal & Hdb).
  exists w'. rewrite Hrun, Herr, Htot, Hal, Hdb. repeat split; assumption.
Qed.

(** C3: every call of [record_operation] returns.  It does not: with
    [success=False] the call waits forever for its own lock in
    [record_error], on a fresh manager and on any other whose lock is free;
    on a manager whose thresholds have an entry for [high_latency] a latency
    over the threshold ends the same way in [send_alert]; and in the
    SQLite-backed manager every call ends so, in [record_metric] at the
    latest. *)
Theorem C3_record_operation_waits_for_its_own_lock :
  (forall latency_ms cost_usd w, lock w = false ->
     exists w',
       TelemetryManagerMongoDB.record_operation latency_ms cost_usd false w
         = Blocked w' /\ lock w' = true) /\
  (exists w',
     TelemetryManagerMongoDB.record_operation 5000 0 true configured
       = Blocked w' /\ lock w' = true /\ alerts w' = []) /\
  (forall latency_ms cost_usd success w, lock w = false ->
     exists w',
       TelemetryManager.record_operation latency_ms cost_usd success w
         = Blocked w' /\ lock w' = true).
Proof.
  split; [|split].
  - intros l c w H.
    destruct (record_operation_failure_blocks l c w H) as (w' & ? & ? & _).
    eauto.
  - eexists. split; [vm_compute; reflexivity|]. split; reflexivity.
  - intros l c s w H. apply sqlite_record_operation_blocks, H.
Qed.

(** C4: a latency over the threshold produces exactly one [high_latency]
    alert carrying the latency.  With the default thresholds it produces
    none: [_check_alert_conditions] looks the threshold up under the alert
    type, [alert_thresholds['high_latency']], and the [KeyError] ends
    [record_operation].  More generally no call of [record_operation], with
    any thresholds, leaves an alert in [self.alerts]. *)
Theorem C4_high_latency_raises_KeyError :
  (exists w',
     TelemetryManagerMongoDB.record_operation 5000 0 true fresh
       = Raised (KeyError "high_latency") w' /\
     alerts w' = [] /\ Store.alerts (mongo w') = [] /\
     total_operations (metrics w') = 1) /\
  (forall latency_ms cost_usd success w,
     alerts (final (TelemetryManagerMongoDB.record_operation
                      latency_ms cost_usd success w)) = alerts w).
Proof.
  split.
  - eexists. split; [vm_compute; reflexivity|]. repeat split; reflexivity.
  - intros. apply record_operation_alerts.
Qed.

(** The configurations that callers with [success=False] reach from a fresh
    manager: the start, or one caller stuck with the lock. *)
Lemma failing_callers_invariant n l c cfg :
  reachable (replicate n (Waiting l c false), fresh) cfg ->
  cfg = (replicate n (Waiting l c false), fresh) \/
  (lock cfg.2 = true /\ error_count (metrics cfg.2) = 1 /\
   total_operations (metrics cfg.2) = 1 /\
   forall i, cfg.1 !! i <> Some Done).
Proof.
  induction 1 as [|cfg cfg' _ IH Hstep]; [left; reflexivity|].
  right. destruct Hstep as [cs w i l' c' s' Hi Hfree]. cbn in *.
  destruct IH as [[= -> ->]|(Hheld & _)]; [|congruence].
  apply lookup_replicate in Hi as [[= -> -> ->] Hlt].
  destruct (record_operation_failure_blocks l c fresh eq_refl)
    as (w' & -> & Hlock & Herr & Htot & _). cbn.
  repeat split; [assumption..|].
  intros j Hj. apply list_lookup_insert_Some in Hj.
  destruct Hj as [(_ & [=] & _)|(_ & Hj)].
  apply lookup_replicate in Hj as [[=] _].
Qed.

(** C5: a hundred concurrent failing callers leave [error_count == 100] and
    [total_operations == 100].  They do not: whichever caller gets the lock
    first stops in [record_error] holding it, and nobody else can start.
    In every configuration the callers can reach at most one operation and
    one error are counted and no caller has returned. *)
Theorem C5_concurrent_failures_count_at_most_one
        (latency_ms cost_usd : Q) (cfg : list caller * world) :
  reachable (replicate 100 (Waiting latency_ms cost_usd false), fresh) cfg ->
  error_count (metrics cfg.2) <= 1 /\ total_operations (metrics cfg.2) <= 1 /\
  error_count (metrics cfg.2) <> 100 /\
  forall i, cfg.1 !! i <> Some Done.
Proof.
  intros H. apply failing_callers_invariant in H.
  destruct H as [->|(_ & -> & -> & Hdone)].
  - cbn [fst snd]. destruct fresh_self as (_ & -> & _). cbn [error_count total_operations].
    repeat split; try lia.
    intros i Hi. apply lookup_replicate in Hi as [[=] _].
  - repeat split; try lia. exact Hdone.
Qed.

Lemma C5_witness :
  exists cfg,
    reachable (replicate 100 (Waiting 100 0 false), fresh) cfg /\
    cfg.1 !! 7%nat = Some Stuck /\
    error_count (metrics cfg.2) <> 100.
Proof.
  eexists. split; [|split].
  - eapply reach_step; [apply reach_start|].
    apply (sched_run _ fresh 7 100 0 false); reflexivity.
  - reflexivity.
  - eapply (C5_concurrent_failures_count_at_most_one 100 0).
    eapply reach_step; [apply reach_start|].
    apply (sched_run _ fresh 7 100 0 false); reflexivity.
Defined.

(** ** Health and summaries *)

Lemma get_system_health_free w :
  lock w = false ->
  exists w',
    TelemetryManagerMongoDB.get_system_health w = Returned (snapshot w) w' /\
    same_self w w' /\
    (head (faults w) <> Some true ->
     mongo w' = Store.mk (Store.telemetry (mongo w)) (Store.alerts (mongo w))
                         (Store.system_health (mongo w) ++ [snapshot w])) /\
    (head (faults w) = Some true ->
     mongo w' = mongo w /\
     log w' = log w ++ [(ERROR, "Failed to save system health")]).
Proof.
  intros H. unfold TelemetryManagerMongoDB.get_system_health, same_self.
  unfold_handler. unfold_monad. rewrite H. cbn.
  rewrite !truediv_floor. cbn. rewrite ?truediv_floor. cbn.
  destruct (faults w) as [|[] fs'] eqn:E; cbn;
    (eexists; split; [reflexivity|]); cbn; rewrite ?H; intuition congruence.
Qed.

Lemma sqlite_get_system_health_free w :
  lock w = false ->
  exists h,
    TelemetryManager.get_system_health w = Returned h w /\
    h_error_rate h =
      (inject_Z (error_count (metrics w)) /
       inject_Z (Z.max 1 (total_operations (metrics w))))%Q /\
    avg_latency_ms h =
      (total_latency (metrics w) /
       inject_Z (Z.max 1 (total_operations (metrics w))))%Q.
Proof.
  intros H. unfold TelemetryManager.get_system_health.
  unfold_monad. rewrite H. cbn.
  rewrite !truediv_floor. cbn. rewrite ?truediv_floor. cbn.
  eexists. split.
  { f_equal. destruct w; unfold set_lock; cbn in *. subst. reflexivity. }
  split; reflexivity.
Qed.

Lemma get_recent_alerts_returns n w :
  exists l w', TelemetryManagerMongoDB.get_recent_alerts n w = Returned l w'.
Proof.
  unfold TelemetryManagerMongoDB.get_recent_alerts.
  unfold_handler. unfold_monad.
  destruct (faults w) as [|[] fs']; cbn; eauto.
Qed.

Lemma get_metrics_summary_returns hours w :
  exists s w',
    TelemetryManagerMongoDB.get_metrics_summary hours w = Returned s w'.
Proof.
  unfold TelemetryManagerMongoDB.get_metrics_summary.
  unfold_handler. unfold_monad. cbn.
  destruct (faults w) as [|[] [|[] fs']] eqn:E; cbn; rewrite ?E; cbn; eauto.
Qed.


(** ** The claims, continued *)

(** C1, counterexample: the SQLite-backed [record_metric] has no handler
    around its insert, so a failing write reaches the caller as an
    exception. *)
Lemma C1_sqlite_write_failure_reaches_caller :
  TelemetryManager.record_metric "latency" 100 None
    (set_faults [true] sqlite_fresh) = Raised SqliteError sqlite_fresh.
Proof. vm_compute. reflexivity. Qed.

(** C1, as amended: on the MongoDB-backed manager, entered with the lock
    free, a failing storage operation never reaches the caller as an
    exception.  [record_metric], [send_alert], [get_system_health],
    [get_recent_alerts] and [get_metrics_summary] return, and
    [record_metric] returns the empty string when its write fails; no
    exception that [record_operation] or [record_error] raises is a storage
    error. *)
Theorem C1_mongodb_storage_failure_stays_inside (w : world) :
  lock w = false ->
  (forall metric_type value metadata, exists id w',
     TelemetryManagerMongoDB.record_metric metric_type value metadata w
       = Returned id w' /\
     (head (faults w) = Some true -> id = "")) /\
  (forall alert_type data, exists w',
     TelemetryManagerMongoDB.send_alert alert_type data w = Returned () w') /\
  (exists h w', TelemetryManagerMongoDB.get_system_health w = Returned h w') /\
  (forall n, exists l w',
     TelemetryManagerMongoDB.get_recent_alerts n w = Returned l w') /\
  (forall hours, exists s w',
     TelemetryManagerMongoDB.get_metrics_summary hours w = Returned s w') /\
  (forall latency_ms cost_usd success e w',
     TelemetryManagerMongoDB.record_operation latency_ms cost_usd success w
       = Raised e w' -> is_PyMongoError e = false) /\
  (forall error_type details e w',
     TelemetryManagerMongoDB.record_error error_type details w
       = Raised e w' -> is_PyMongoError e = false).
Proof.
  intros H. repeat split.
  - intros mt v md.
    destruct (record_metric_spec mt v md w) as (id & w' & Hrun & _ & Hbad & _).
    exists id, w'. split; [exact Hrun|]. intros Hf. apply Hbad, Hf.
  - intros a d. destruct (send_alert_free a d w H) as (w' & Hrun & _). eauto.
  - destruct (get_system_health_free w H) as (w' & Hrun & _). eauto.
  - intros n. apply get_recent_alerts_returns.
  - intros hours. apply get_metrics_summary_returns.
  - intros l c [] e w' Hrun.
    + destruct (record_operation_success l c w H)
        as (w1 & [E|[(k & E)|E]] & _); rewrite E in Hrun;
        try discriminate. injection Hrun as <- _. reflexivity.
    + destruct (record_operation_failure_blocks l c w H) as (w1 & E & _).
      rewrite E in Hrun. discriminate.
  - intros et d e w' Hrun.
    destruct (record_error_free et d w H) as (w1 & [E|[(k & E)|E]] & _);
      rewrite E in Hrun; try discriminate. injection Hrun as <- _.
    reflexivity.
Qed.

Lemma C1_witness :
  exists w',
    TelemetryManagerMongoDB.record_metric "latency" 100 None
      (set_faults [true] fresh) = Returned "" w'.
Proof.
  destruct (C1_mongodb_storage_failure_stays_inside
              (set_faults [true] fresh) eq_refl) as (Hmetric & _).
  destruct (Hmetric "latency" 100%Q None) as (id & w' & Hrun & Hid).
  exists w'. rewrite <- (Hid eq_refl). exact Hrun.
Defined.

(** C6: the error rate and the average latency are computed over
    [max(1, total_operations)], so with the lock free [get_system_health]
    returns them in every state of the counters, zero operations included,
    in both managers, and [record_error] never raises
    [ZeroDivisionError]. *)
Theorem C6_rates_floor_the_denominator (w : world) :
  lock w = false ->
  let m := metrics w in
  let error_rate :=
    (inject_Z (error_count m) / inject_Z (Z.max 1 (total_operations m)))%Q in
  let avg_latency :=
    (total_latency m / inject_Z (Z.max 1 (total_operations m)))%Q in
  1 <= Z.max 1 (total_operations m) /\
  (exists h w',
     TelemetryManagerMongoDB.get_system_health w = Returned h w' /\
     h_error_rate h = error_rate /\ avg_latency_ms h = avg_latency) /\
  (exists h w',
     TelemetryManager.get_system_health w = Returned h w' /\
     h_error_rate h = error_rate /\ avg_latency_ms h = avg_latency) /\
  (forall error_type details w',
     TelemetryManagerMongoDB.record_error error_type details w
       <> Raised ZeroDivisionError w').
Proof.
  intros H m error_rate avg_latency. split; [lia|]. split; [|split].
  - destruct (get_system_health_free w H) as (w' & Hrun & _).
    exists (snapshot w), w'. split; [exact Hrun|]. split; reflexivity.
  - destruct (sqlite_get_system_health_free w H) as (h & Hrun & Hr & Ha).
    exists h, w. auto.
  - intros et d w' Hrun.
    destruct (record_error_free et d w H) as (w1 & [E|[(k & E)|E]] & _);
      rewrite E in Hrun; discriminate.
Qed.

Lemma C6_witness :
  exists h w',
    TelemetryManagerMongoDB.get_system_health fresh = Returned h w' /\
    total_operations (metrics fresh) = 0 /\
    h_error_rate h = (0 / 1)%Q /\ avg_latency_ms h = (0 / 1)%Q.
Proof.
  destruct (C6_rates_floor_the_denominator fresh eq_refl)
    as (_ & (h & w' & Hrun & Hr & Ha) & _).
  exists h, w'. split; [exact Hrun|]. split; [reflexivity|].
  split; [exact Hr | exact Ha].
Defined.

(** C7, counterexample: the SQLite-backed [_load_config] opens and parses
    the file without a handler, so a file that is not JSON makes the
    constructor raise. *)
Lemma C7_sqlite_invalid_config_raises :
  exists w',
    TelemetryManager.__init__ (Some "telemetry.json")
      (set_fs {["telemetry.json" := InvalidJSON]} boot)
    = Raised JSONDecodeError w'.
Proof. eexists. vm_compute. reflexivity. Qed.

(** C7, as amended: when the storage can be reached, constructing the
    MongoDB-backed manager with no configuration source, with a path to a
    file that is absent, or with a file that cannot be opened or parsed
    succeeds and leaves the built-in thresholds; the failed load is logged
    as a warning.  The SQLite-backed manager does the same in the first two
    cases. *)
Theorem C7_construction_falls_back_to_defaults
        (w : world) (config_path : option string) :
  no_fault 1 w ->
  no_config w config_path \/ load_fails w config_path ->
  (exists w',
     TelemetryManagerMongoDB.__init__ config_path w = Returned () w' /\
     alert_thresholds w' =
       {[ "latency" := 3000%Q; "cost" := (5 # 1000)%Q;
          "error_rate" := (1 # 10)%Q; "cpu_usage" := 80%Q;
          "memory_usage" := 85%Q ]} /\
     (load_fails w config_path ->
      (WARNING, "Failed to load config") ∈ log w')) /\
  (no_config w config_path ->
   exists w',
     TelemetryManager.__init__ config_path w = Returned () w' /\
     alert_thresholds w' = default_thresholds).
Proof.
  intros Hok Hcfg. apply no_fault_head in Hok.
  assert (Hload :
    (TelemetryManagerMongoDB._load_config config_path w = Returned None w /\
     (no_config w config_path ->
      TelemetryManager._load_config config_path w = Returned None w) /\
     ~ load_fails w config_path) \/
    (TelemetryManagerMongoDB._load_config config_path w =
       Returned None (set_log (log w ++ [(WARNING, "Failed to load config")]) w) /\
     ~ no_config w config_path)).
  { unfold TelemetryManagerMongoDB._load_config, TelemetryManager._load_config.
    unfold_monad.
    destruct Hcfg as [[->|(p & -> & Hp)]|(p & -> & Hne & Hp)].
    - left. split; [reflexivity|]. split; [reflexivity|].
      intros (p & [=] & _).
    - left. rewrite Hp.
      rewrite bool_decide_eq_false_2 by (intros [? [=]]).
      rewrite andb_false_r. split; [reflexivity|]. split; [reflexivity|].
      intros (p' & [= <-] & _ & [E|E]); congruence.
    - right. apply String.eqb_neq in Hne. rewrite Hne.
      rewrite bool_decide_eq_true_2 by (destruct Hp as [->| ->]; eauto).
      cbn. split.
      + destruct Hp as [->| ->]; reflexivity.
      + intros [[=]|(p' & [= <-] & E)].
        destruct Hp as [Hp|Hp]; rewrite Hp in E; discriminate. }
  unfold TelemetryManagerMongoDB.__init__, TelemetryManager.__init__,
    TelemetryManager._init_database.
  unfold_handler. unfold_monad.
  destruct Hload as [(-> & Hsql & Hnot)|(-> & Hnot)]; cbn.
  - split.
    + destruct (faults w) as [|[] fs']; [|now elim Hok|]; cbn;
        (eexists; split; [reflexivity|]); (split; [reflexivity|]);
        intros Hf; contradiction.
    + intros Hno. rewrite (Hsql Hno). cbn.
      destruct (faults w) as [|[] fs']; [|now elim Hok|]; cbn;
        (eexists; split; [reflexivity|]); reflexivity.
  - split; [|intros Hno; contradiction].
    destruct (faults w) as [|[] fs']; [|now elim Hok|]; cbn;
      (eexists; split; [reflexivity|]); (split; [reflexivity|]);
      intros _; cbn; rewrite !elem_of_app, !list_elem_of_singleton; tauto.
Qed.

Lemma C7_witness :
  exists w',
    TelemetryManagerMongoDB.__init__ (Some "telemetry.json")
      (set_fs {["telemetry.json" := InvalidJSON]} boot) = Returned () w' /\
    alert_thresholds w' !! "latency" = Some 3000%Q /\
    (WARNING, "Failed to load config") ∈ log w'.
Proof.
  assert (Hok : no_fault 1 (set_fs {["telemetry.json" := InvalidJSON]} boot)).
  { unfold no_fault. cbn. apply not_elem_of_nil. }
  assert (Hfail : load_fails (set_fs {["telemetry.json" := InvalidJSON]} boot)
                             (Some "telemetry.json")).
  { exists "telemetry.json". split; [reflexivity|].
    split; [discriminate|]. right. reflexivity. }
  destruct (C7_construction_falls_back_to_defaults _ _ Hok (or_intror Hfail))
    as ((w' & Hrun & Hth & Hlog) & _).
  exists w'. split; [exact Hrun|]. split; [|exact (Hlog Hfail)].
  rewrite Hth. reflexivity.
Defined.


Lemma Qgt_bool_spec (a b : Q) : Is_true (Qgt_bool a b) <-> (b < a)%Q.
Proof.
  unfold Qgt_bool. rewrite Is_true_true, negb_true_iff.
  rewrite <- not_true_iff_false, Qle_bool_iff. split.
  - apply Qnot_le_lt.
  - apply Qlt_not_le.
Qed.



(** C9: on an empty store that answers, [record_metric("latency", 120.5,
    {"case": "t1"})] followed, less than an hour later, by the query for
    the records of the last hour gives exactly one record, with value 120.5
    and [metadata["case"] == "t1"]; in the MongoDB-backed manager and, with
    the lock free, in the SQLite-backed one. *)
Theorem C9_metric_round_trip (w : world) (d : Q) :
  Store.telemetry (mongo w) = [] ->
  no_fault 2 w ->
  lock w = false ->
  (0 <= d)%Q -> (d < 3600)%Q ->
  (exists id w1 r w2,
     TelemetryManagerMongoDB.record_metric
       "latency" (241 # 2) (Some [("case", PyStr "t1")]) w = Returned id w1 /\
     MongoDBHandler.telemetry_find_gte
       (clock (later d w1) - inject_Z (1 * 3600)) (later d w1)
       = Returned [r] w2 /\
     m_metric_type r = "latency" /\ m_value r = (241 # 2)%Q /\
     dict_get "case" (m_metadata r) = Some (PyStr "t1")) /\
  (exists w1 r w2,
     TelemetryManager.record_metric
       "latency" (241 # 2) (Some [("case", PyStr "t1")]) w = Returned () w1 /\
     TelemetryManager.metrics_select_gt
       (clock (later d w1) - inject_Z (1 * 3600)) (later d w1)
       = Returned [r] w2 /\
     m_metric_type r = "latency" /\ m_value r = (241 # 2)%Q /\
     dict_get "case" (m_metadata r) = Some (PyStr "t1")).
Proof.
  intros Hempty Hok Hfree Hd0 Hd1.
  assert (Hge : Is_true (Qle_bool (clock w + d - inject_Z (1 * 3600)) (clock w))).
  { rewrite Is_true_true, Qle_bool_iff.
    change (inject_Z (1 * 3600)) with 3600%Q. lra. }
  assert (Hgt : Is_true (Qgt_bool (clock w) (clock w + d - inject_Z (1 * 3600)))).
  { rewrite Qgt_bool_spec. change (inject_Z (1 * 3600)) with 3600%Q. lra. }
  assert (Hfaults : faults w = [] \/ faults w = [false] \/
                    exists fs2, faults w = false :: false :: fs2).
  { destruct (faults w) as [|b1 [|b2 fs2]] eqn:E1; [left; reflexivity|..];
      destruct (no_fault_tail _ _ _ _ E1 Hok) as [-> Hok2]; right;
      [left; reflexivity|].
    destruct b2; [exfalso; apply Hok2; left|]. right. eauto. }
  unfold TelemetryManagerMongoDB.record_metric, TelemetryManager.record_metric,
    TelemetryManager.metrics_insert, TelemetryManager.metrics_select_gt, later.
  unfold_handler. unfold_monad. rewrite Hfree. cbn.
  destruct Hfaults as [E|[E|(fs2 & E)]]; rewrite E; cbn; rewrite ?E; cbn;
    rewrite Hempty; cbn [app];
    (split; [eexists _, _, _, _ | eexists _, _, _];
     (split; [reflexivity|]); cbn; rewrite ?E; cbn;
     rewrite decide_True by assumption;
     (split; [reflexivity|]); cbn; auto).
Qed.

Lemma C9_witness :
  exists id w1 r w2,
    TelemetryManagerMongoDB.record_metric
      "latency" (241 # 2) (Some [("case", PyStr "t1")]) fresh
      = Returned id w1 /\
    MongoDBHandler.telemetry_find_gte
      (clock (later 60 w1) - inject_Z (1 * 3600)) (later 60 w1)
      = Returned [r] w2 /\
    m_value r = (241 # 2)%Q /\
    dict_get "case" (m_metadata r) = Some (PyStr "t1").
Proof.
  assert (Hok : no_fault 2 fresh) by apply not_elem_of_nil.
  destruct (C9_metric_round_trip fresh 60 eq_refl Hok eq_refl)
    as ((id & w1 & r & w2 & Hput & Hget & _ & Hv & Hm) & _);
    [discriminate | reflexivity |].
  exists id, w1, r, w2. auto.
Defined.

(** C10: with the lock free and a store that accepts the write, a call of
    the MongoDB-backed [get_system_health] appends exactly one document to
    the [system_health] collection, the snapshot it returns (uptime,
    counters, error rate, active alerts); the other collections, the running
    counters and the alert list stay as they were. *)
Theorem C10_get_system_health_stores_its_snapshot (w : world) :
  lock w = false ->
  no_fault 1 w ->
  exists h w',
    TelemetryManagerMongoDB.get_system_health w = Returned h w' /\
    Store.system_health (mongo w') = Store.system_health (mongo w) ++ [h] /\
    Store.telemetry (mongo w') = Store.telemetry (mongo w) /\
    Store.alerts (mongo w') = Store.alerts (mongo w) /\
    metrics w' = metrics w /\ alerts w' = alerts w /\
    uptime_seconds h = (clock w - start_time (metrics w))%Q /\
    h_total_operations h = total_operations (metrics w) /\
    h_error_count h = error_count (metrics w) /\
    h_error_rate h =
      (inject_Z (error_count (metrics w)) /
       inject_Z (Z.max 1 (total_operations (metrics w))))%Q /\
    active_alerts h = count_active (alerts w).
Proof.
  intros Hfree Hok. apply no_fault_head in Hok.
  destruct (get_system_health_free w Hfree)
    as (w' & Hrun & (_ & Hm & Ha & _) & Hstore & _).
  exists (snapshot w), w'. rewrite (Hstore Hok). cbn.
  repeat split; auto.
Qed.

Lemma C10_witness :
  exists h w',
    TelemetryManagerMongoDB.get_system_health fresh = Returned h w' /\
    Store.system_health (mongo w') = [h] /\ metrics w' = metrics fresh.
Proof.
  assert (Hok : no_fault 1 fresh) by apply not_elem_of_nil.
  destruct (C10_get_system_health_stores_its_snapshot fresh eq_refl Hok)
    as (h & w' & Hrun & Hsh & _ & _ & Hm & _).
  exists h, w'. split; [exact Hrun|]. split; [exact Hsh | exact Hm].
Defined.

(** * More of the code: how the methods compose *)

(** ** Relations kept by every method *)

Section Keeps.
Context (R : relation world) `{!Frame R}.

Lemma keeps_ret {A} (a : A) : keeps R (mret a).
Proof. intros w. reflexivity. Qed.

Lemma keeps_raise {A} e : keeps R (@raise A e).
Proof. intros w. reflexivity. Qed.

Lemma keeps_gets {A} (f : world -> A) : keeps R (gets f).
Proof. intros w. reflexivity. Qed.

Lemma keeps_modify (f : world -> world) :
  (forall w, R w (f w)) -> keeps R (modify f).
Proof. intros H w. apply H. Qed.

Lemma keeps_bind {A B} (m : M A) (f : A -> M B) :
  keeps R m -> (forall a, keeps R (f a)) -> keeps R (m ≫= f).
Proof.
  intros Hm Hf w. specialize (Hm w). unfold mbind, M_bind.
  destruct (m w) as [a w'|e w'|w']; cbn in *; [|assumption..].
  etransitivity; [exact Hm | apply Hf].
Qed.

Lemma keeps_try_except {A} (body : M A) catches handler :
  keeps R body -> (forall e, keeps R (handler e)) ->
  keeps R (try_except body catches handler).
Proof.
  intros Hb Hh w. specialize (Hb w). unfold try_except.
  destruct (body w) as [a w'|e w'|w']; cbn in *; [assumption| |assumption].
  destruct (catches e); [|assumption].
  etransitivity; [exact Hb | apply Hh].
Qed.

Lemma keeps_with_lock {A} (body : M A) :
  keeps R body -> keeps R (with_lock body).
Proof.
  intros Hb w. unfold with_lock. destruct (lock w); [reflexivity|].
  specialize (Hb (set_lock true w)).
  assert (Hl : R w (set_lock true w)) by apply frame_lock.
  destruct (body (set_lock true w)) as [a w'|e w'|w']; cbn in *;
    try (etransitivity; [etransitivity; [exact Hl | exact Hb]|];
         apply frame_lock).
  etransitivity; [exact Hl | exact Hb].
Qed.

Lemma keeps_for_each {A} (l : list A) (body : A -> M unit) :
  (forall x, keeps R (body x)) -> keeps R (for_each l body).
Proof.
  intros Hb. induction l as [|x l IH]; cbn.
  - apply keeps_ret.
  - apply keeps_bind; [apply Hb | intros _; exact IH].
Qed.

Lemma keeps_logger l msg : keeps R (logger l msg).
Proof. apply keeps_modify. intros w. apply frame_log. Qed.

Lemma keeps_time : keeps R time_time.
Proof. apply keeps_gets. Qed.

Lemma keeps_storage_fault : keeps R storage_fault.
Proof.
  intros w. unfold storage_fault.
  destruct (faults w); cbn; [reflexivity | apply frame_faults].
Qed.

Lemma keeps_truediv a b : keeps R (truediv a b).
Proof. unfold truediv. destruct (Qeq_bool b 0); intros w; reflexivity. Qed.

Lemma keeps_getitem d k : keeps R (getitem d k).
Proof. unfold getitem. destruct (d !! k); intros w; reflexivity. Qed.

Lemma keeps_requests_post url a : keeps R (requests_post url a).
Proof.
  intros w. unfold requests_post. destruct (net_faults w) as [|[] nf]; cbn.
  - apply frame_posted.
  - apply frame_net_faults.
  - etransitivity; [apply (frame_net_faults w nf)|].
    apply (frame_posted (set_net_faults nf w)).
Qed.

Lemma keeps_ObjectId : keeps R MongoDBHandler.ObjectId.
Proof. intros w. apply frame_next_id. Qed.

(** One step of a proof that a method keeps [R]. *)
Ltac keeps_step :=
  lazymatch goal with
  | |- keeps _ (if ?b then _ else _) => destruct b
  | |- keeps _ (match ?x with _ => _ end) => destruct x
  | |- keeps _ (mret _) => apply keeps_ret
  | |- keeps _ (raise _) => apply keeps_raise
  | |- keeps _ (gets _) => apply keeps_gets
  | |- keeps _ (logger _ _) => apply keeps_logger
  | |- keeps _ time_time => apply keeps_time
  | |- keeps _ storage_fault => apply keeps_storage_fault
  | |- keeps _ (truediv _ _) => apply keeps_truediv
  | |- keeps _ (getitem _ _) => apply keeps_getitem
  | |- keeps _ (requests_post _ _) => apply keeps_requests_post
  | |- keeps _ MongoDBHandler.ObjectId => apply keeps_ObjectId
  | |- keeps _ (_ ≫= _) => apply keeps_bind; [|intros ?]
  | |- keeps _ (try_except _ _ _) => apply keeps_try_except; [|intros ?]
  | |- keeps _ (with_lock _) => apply keeps_with_lock
  | |- keeps _ (for_each _ _) => apply keeps_for_each; intros ?
  | |- keeps _ (modify _) => apply keeps_modify; intros ?; cbn
  | |- keeps _ (let _ := _ in _) => cbv zeta
  end.

Ltac keeps_auto :=
  repeat keeps_step;
  try first [ apply frame_store_metric | apply frame_store_alert
            | apply frame_store_health | apply frame_alert
            | apply frame_count_operation | apply frame_count_error
            | apply frame_add_latency | apply frame_add_cost ].

Lemma keeps_save_telemetry data : keeps R (MongoDBHandler.save_telemetry data).
Proof.
  unfold MongoDBHandler.save_telemetry, MongoDBHandler.telemetry_insert_one,
    MongoDBHandler.telemetry_store.
  keeps_auto.
Qed.

Lemma keeps_save_alert alert_type data :
  keeps R (MongoDBHandler.save_alert alert_type
             (severity_map_get alert_type) data).
Proof.
  unfold MongoDBHandler.save_alert, MongoDBHandler.alerts_insert_one,
    MongoDBHandler.alerts_store.
  keeps_auto.
Qed.

Lemma keeps_record_metric metric_type value metadata :
  keeps R (TelemetryManagerMongoDB.record_metric metric_type value metadata).
Proof.
  unfold TelemetryManagerMongoDB.record_metric.
  keeps_auto. apply keeps_save_telemetry.
Qed.

Lemma keeps_send_alert alert_type data :
  keeps R (TelemetryManagerMongoDB.send_alert alert_type data).
Proof.
  unfold TelemetryManagerMongoDB.send_alert.
  keeps_auto. apply keeps_save_alert.
Qed.

Lemma keeps_record_error error_type details :
  keeps R (TelemetryManagerMongoDB.record_error error_type details).
Proof.
  unfold TelemetryManagerMongoDB.record_error.
  keeps_auto; first [apply keeps_record_metric | apply keeps_send_alert].
Qed.

Lemma keeps_check_alert_conditions l c s :
  keeps R (TelemetryManagerMongoDB._check_alert_conditions l c s).
Proof.
  unfold TelemetryManagerMongoDB._check_alert_conditions.
  keeps_auto; apply keeps_send_alert.
Qed.

Lemma keeps_record_operation l c s :
  keeps R (TelemetryManagerMongoDB.record_operation l c s).
Proof.
  unfold TelemetryManagerMongoDB.record_operation.
  keeps_auto;
    first [ apply keeps_record_metric | apply keeps_record_error
          | apply keeps_check_alert_conditions ].
Qed.

Lemma keeps_get_system_health :
  keeps R TelemetryManagerMongoDB.get_system_health.
Proof.
  unfold TelemetryManagerMongoDB.get_system_health,
    MongoDBHandler.system_health_store.
  keeps_auto.
Qed.

Lemma keeps_get_recent_alerts n :
  keeps R (TelemetryManagerMongoDB.get_recent_alerts n).
Proof.
  unfold TelemetryManagerMongoDB.get_recent_alerts,
    MongoDBHandler.get_alerts, MongoDBHandler.alerts_find_sorted.
  keeps_auto.
Qed.

Lemma keeps_get_metrics_summary hours :
  keeps R (TelemetryManagerMongoDB.get_metrics_summary hours).
Proof.
  unfold TelemetryManagerMongoDB.get_metrics_summary,
    MongoDBHandler.telemetry_find_gte, MongoDBHandler.alerts_find_gte.
  keeps_auto.
Qed.

(** Every event keeps [R], and so does every sequence of events. *)
Lemma keeps_event ev w : R w (after ev w).
Proof.
  destruct ev; cbn.
  - apply keeps_record_metric.
  - apply keeps_record_operation.
  - apply keeps_record_error.
  - apply keeps_send_alert.
  - apply keeps_get_system_health.
  - apply keeps_get_recent_alerts.
  - apply keeps_get_metrics_summary.
  - apply frame_clock.
Qed.

Lemma keeps_events evs w : R w (after_all evs w).
Proof.
  revert w. induction evs as [|ev evs IH]; intros w; cbn.
  - reflexivity.
  - etransitivity; [apply keeps_event | apply IH].
Qed.

End Keeps.

#[local] Instance append_only_preorder : PreOrder append_only.
Proof.
  split.
  - intros w. unfold append_only. repeat split; reflexivity.
  - intros w1 w2 w3 (? & ? & ? & ?) (? & ? & ? & ?).
    unfold append_only. repeat split; etransitivity; eassumption.
Qed.

#[local] Instance append_only_frame : Frame append_only.
Proof.
  split; [exact append_only_preorder|..]; intros; unfold append_only; cbn;
    repeat split; first [reflexivity | apply prefix_app_r; reflexivity].
Qed.

#[local] Instance settled_preorder : PreOrder settled.
Proof.
  split.
  - intros w. unfold settled. repeat split; reflexivity.
  - intros w1 w2 w3 (? & ? & ? & ?) (? & ? & ? & ?).
    unfold settled. repeat split; try congruence; etransitivity; eassumption.
Qed.

#[local] Instance settled_frame : Frame settled.
Proof.
  split; [exact settled_preorder|..]; intros; unfold settled; cbn;
    repeat split; lia.
Qed.

#[local] Instance alerts_wf_preorder :
  PreOrder (fun w w' => alerts_wf w -> alerts_wf w').
Proof. split; [intros w; tauto | intros w1 w2 w3; tauto]. Qed.

#[local] Instance alerts_wf_frame :
  Frame (fun w w' => alerts_wf w -> alerts_wf w').
Proof.
  split; [exact alerts_wf_preorder|..]; intros; unfold alerts_wf in *; cbn;
    try assumption;
    match goal with H : _ /\ _ |- _ => destruct H as [Hmem Hdb] end;
    (split; try assumption);
    apply Forall_app; (split; [assumption|]);
    apply Forall_singleton; cbn; split; reflexivity.
Qed.

(** When no alert is resolved, all of them count as active. *)
Lemma count_active_unresolved (l : list Alert) :
  Forall (fun a => resolved a = false) l -> count_active l = Z.of_nat (length l).
Proof.
  intros H. unfold count_active. f_equal. f_equal.
  induction H as [|a l Ha _ IH]; [reflexivity|].
  rewrite filter_cons_True by (rewrite Ha; exact I). f_equal. exact IH.
Qed.

(** X1: whatever is done with the manager, nothing that was recorded is
    changed or dropped: the alert list in memory and the three collections
    only grow at the end, so a record found at a position stays there. *)
Theorem records_are_never_rewritten (evs : list event) (w : world) :
  append_only w (after_all evs w) /\
  (forall i r, Store.telemetry (mongo w) !! i = Some r ->
               Store.telemetry (mongo (after_all evs w)) !! i = Some r) /\
  (forall i d, Store.alerts (mongo w) !! i = Some d ->
               Store.alerts (mongo (after_all evs w)) !! i = Some d) /\
  (forall i a, alerts w !! i = Some a -> alerts (after_all evs w) !! i = Some a).
Proof.
  pose proof (keeps_events append_only evs w) as (Ha & Ht & Hd & Hh).
  split; [repeat split; assumption|].
  repeat split; intros i x Hx; eapply prefix_lookup_Some; eassumption.
Qed.

(** X2: the thresholds and the start time are fixed once the manager is
    constructed, and [error_count] and [total_operations] never go down. *)
Theorem thresholds_stay_and_counters_grow (evs : list event) (w : world) :
  alert_thresholds (after_all evs w) = alert_thresholds w /\
  start_time (metrics (after_all evs w)) = start_time (metrics w) /\
  error_count (metrics w) <= error_count (metrics (after_all evs w)) /\
  total_operations (metrics w) <= total_operations (metrics (after_all evs w)).
Proof. exact (keeps_events settled evs w). Qed.

(** X3: no method ever resolves an alert or stores one with a severity
    other than that of its type; so as long as that holds at the start,
    [get_system_health] reports every alert in memory as active. *)
Theorem alerts_stay_unresolved (evs : list event) (w : world) :
  alerts_wf w ->
  lock (after_all evs w) = false ->
  alerts_wf (after_all evs w) /\
  exists h w',
    TelemetryManagerMongoDB.get_system_health (after_all evs w)
      = Returned h w' /\
    active_alerts h = Z.of_nat (length (alerts (after_all evs w))).
Proof.
  intros Hwf Hfree.
  pose proof (keeps_events (fun w w' => alerts_wf w -> alerts_wf w') evs w Hwf)
    as Hwf'.
  split; [exact Hwf'|].
  destruct (get_system_health_free _ Hfree) as (w' & Hrun & _).
  exists (snapshot (after_all evs w)), w'. split; [exact Hrun|].
  cbn. apply count_active_unresolved.
  destruct Hwf' as [Hmem _]. eapply Forall_impl; [exact Hmem|].
  intros a [Ha _]. exact Ha.
Qed.

Lemma alerts_stay_unresolved_witness :
  exists h w',
    TelemetryManagerMongoDB.get_system_health
      (after_all [SendAlert "high_cost" []; Wait 5; SendAlert "other" []] fresh)
      = Returned h w' /\
    active_alerts h = 2.
Proof.
  assert (Hwf : alerts_wf fresh) by (split; constructor).
  destruct (alerts_stay_unresolved
              [SendAlert "high_cost" []; Wait 5; SendAlert "other" []]
              fresh Hwf eq_refl) as (_ & h & w' & Hrun & Hact).
  exists h, w'. split; [exact Hrun | exact Hact].
Defined.

(** ** [record_operation] and [record_error] in detail *)

Lemma Qgt_bool_false (a b : Q) : Qgt_bool a b = false <-> (a <= b)%Q.
Proof.
  unfold Qgt_bool. rewrite negb_false_iff. apply Qle_bool_iff.
Qed.

(** [_check_alert_conditions] under the held lock, with both thresholds
    configured: it returns when neither is exceeded, and cannot otherwise. *)
Lemma check_alert_conditions_held_cases l c s w tl tc :
  lock w = true ->
  alert_thresholds w !! "latency" = Some tl ->
  alert_thresholds w !! "cost" = Some tc ->
  (Qgt_bool l tl = false /\ Qgt_bool c tc = false /\
   TelemetryManagerMongoDB._check_alert_conditions l c s w = Returned () w) \/
  ((Qgt_bool l tl = true \/ Qgt_bool c tc = true) /\
   (TelemetryManagerMongoDB._check_alert_conditions l c s w = Blocked w \/
    exists k,
      TelemetryManagerMongoDB._check_alert_conditions l c s w
        = Raised (KeyError k) w)).
Proof.
  intros H Hl Hc. unfold TelemetryManagerMongoDB._check_alert_conditions.
  unfold_monad. cbn. rewrite Hl, Hc. cbn.
  destruct (Qgt_bool l tl), (Qgt_bool c tc); cbn; unfold_monad; cbn;
    [right; split; [auto|] ..| left; auto];
    repeat match goal with
      | |- context [alert_thresholds w !! ?k] =>
          destruct (alert_thresholds w !! k); cbn
      | |- context [TelemetryManagerMongoDB.send_alert ?a ?d w] =>
          rewrite (send_alert_held a d w H); cbn
      end; eauto.
Qed.

(** The world in which [record_operation] reaches its threshold check. *)
Lemma record_operation_reaches_check l c w :
  lock w = false ->
  exists w1,
    TelemetryManagerMongoDB.record_operation l c true w =
      match TelemetryManagerMongoDB._check_alert_conditions l c true w1 with
      | Returned a w' => Returned a (set_lock false w')
      | Raised e w' => Raised e (set_lock false w')
      | Blocked w' => Blocked w'
      end /\
    lock w1 = true /\
    metrics w1 =
      add_total_cost c (add_total_latency l
                          (add_total_operations 1 (metrics w))) /\
    alerts w1 = alerts w /\ alert_thresholds w1 = alert_thresholds w.
Proof.
  intros H. unfold TelemetryManagerMongoDB.record_operation.
  unfold_monad. rewrite H. cbn.
  step_record_metric. cbn.
  destruct (Qgt_bool c 0); cbn; [step_record_metric; cbn|];
    (eexists; split; [reflexivity|]); repeat split; congruence.
Qed.

(** X4: with the lock free and the two thresholds configured,
    [record_operation] returns exactly when the operation succeeded and
    neither its latency nor its cost is over the threshold; storage failures
    play no part in it. *)
Theorem record_operation_returns_iff
        (latency_ms cost_usd : Q) (success : bool) (w : world) (tl tc : Q) :
  lock w = false ->
  alert_thresholds w !! "latency" = Some tl ->
  alert_thresholds w !! "cost" = Some tc ->
  (exists w',
     TelemetryManagerMongoDB.record_operation latency_ms cost_usd success w
       = Returned () w') <->
  success = true /\ (latency_ms <= tl)%Q /\ (cost_usd <= tc)%Q.
Proof.
  intros Hfree Hl Hc. rewrite <- !Qgt_bool_false. destruct success.
  - destruct (record_operation_reaches_check latency_ms cost_usd w Hfree)
      as (w1 & -> & Hheld & _ & _ & Hth).
    rewrite <- Hth in Hl, Hc.
    destruct (check_alert_conditions_held_cases
                latency_ms cost_usd true w1 tl tc Hheld Hl Hc)
      as [(H1 & H2 & ->)|(Hover & [-> |(k & ->)])].
    + split; [auto | eauto].
    + split; [intros (w' & [=]) | intros (_ & H1 & H2)].
      destruct Hover; congruence.
    + split; [intros (w' & [=]) | intros (_ & H1 & H2)].
      destruct Hover; congruence.
  - destruct (record_operation_failure_blocks latency_ms cost_usd w Hfree)
      as (w' & -> & _).
    split; [intros (w1 & [=]) | intros ([=] & _)].
Qed.

Lemma record_operation_returns_iff_witness :
  (exists w',
     TelemetryManagerMongoDB.record_operation 3000 (5 # 1000) true fresh
       = Returned () w') /\
  ~ (exists w',
       TelemetryManagerMongoDB.record_operation 3001 0 true fresh
         = Returned () w').
Proof.
  split.
  - apply (record_operation_returns_iff 3000 (5 # 1000) true fresh
             3000 (5 # 1000) eq_refl eq_refl eq_refl).
    split; [reflexivity|]. split; discriminate.
  - intros H.
    apply (record_operation_returns_iff 3001 0 true fresh
             3000 (5 # 1000) eq_refl eq_refl eq_refl) in H.
    destruct H as (_ & H & _). apply H. reflexivity.
Defined.

(** One operation within the thresholds: what it returns with. *)
Lemma record_operation_within l c w tl tc :
  lock w = false ->
  alert_thresholds w !! "latency" = Some tl ->
  alert_thresholds w !! "cost" = Some tc ->
  (l <= tl)%Q -> (c <= tc)%Q ->
  exists w',
    TelemetryManagerMongoDB.record_operation l c true w = Returned () w' /\
    lock w' = false /\
    metrics w' =
      add_total_cost c (add_total_latency l
                          (add_total_operations 1 (metrics w))) /\
    alerts w' = alerts w /\ alert_thresholds w' = alert_thresholds w.
Proof.
  intros Hfree Hl Hc Hle1 Hle2.
  destruct (record_operation_reaches_check l c w Hfree)
    as (w1 & -> & Hheld & Hm & Ha & Hth).
  rewrite <- Hth in Hl, Hc. apply Qgt_bool_false in Hle1, Hle2.
  destruct (check_alert_conditions_held_cases l c true w1 tl tc Hheld Hl Hc)
    as [(_ & _ & ->)|(Hover & _)]; [|destruct Hover; congruence].
  eexists. split; [reflexivity|]. cbn. auto.
Qed.

(** X5: a batch of successful operations, each within the thresholds, is
    recorded call by call: every call returns, [total_operations] grows by
    the size of the batch, the latencies and costs are added up in order,
    no error is counted and no alert raised; [get_system_health] then
    reports the sums over [max(1, total_operations)]. *)
Theorem record_operations_add_up (ops : list (Q * Q)) (w : world) (tl tc : Q) :
  lock w = false ->
  alert_thresholds w !! "latency" = Some tl ->
  alert_thresholds w !! "cost" = Some tc ->
  Forall (fun op => (op.1 <= tl)%Q /\ (op.2 <= tc)%Q) ops ->
  exists w',
    record_operations ops w = Returned () w' /\
    lock w' = false /\
    total_operations (metrics w') =
      total_operations (metrics w) + Z.of_nat (length ops) /\
    total_latency (metrics w') = foldl Qplus (total_latency (metrics w)) ops.*1 /\
    total_cost (metrics w') = foldl Qplus (total_cost (metrics w)) ops.*2 /\
    error_count (metrics w') = error_count (metrics w) /\
    alerts w' = alerts w /\
    exists h w'',
      TelemetryManagerMongoDB.get_system_health w' = Returned h w'' /\
      h_total_operations h = total_operations (metrics w') /\
      avg_latency_ms h =
        (total_latency (metrics w') /
         inject_Z (Z.max 1 (total_operations (metrics w'))))%Q.
Proof.
  intros Hfree Hl Hc Hops.
  assert (Hrun : exists w',
    record_operations ops w = Returned () w' /\ lock w' = false /\
    alert_thresholds w' = alert_thresholds w /\
    total_operations (metrics w') =
      total_operations (metrics w) + Z.of_nat (length ops) /\
    total_latency (metrics w') = foldl Qplus (total_latency (metrics w)) ops.*1 /\
    total_cost (metrics w') = foldl Qplus (total_cost (metrics w)) ops.*2 /\
    error_count (metrics w') = error_count (metrics w) /\
    alerts w' = alerts w).
  { revert w Hfree Hl Hc.
    induction Hops as [|[l c] ops [Hle1 Hle2] _ IH]; intros w Hfree Hl Hc.
    - exists w. cbn. repeat split; try reflexivity; try assumption. lia.
    - destruct (record_operation_within l c w tl tc Hfree Hl Hc Hle1 Hle2)
        as (w1 & Hrun1 & Hfree1 & Hm1 & Ha1 & Hth1).
      destruct (IH w1 Hfree1) as (w' & Hrun & Hfree' & Hth' & Ht & Hlat & Hcost & He & Ha);
        [congruence..|].
      exists w'. unfold record_operations in *. cbn [for_each].
      unfold mbind at 1, M_bind at 1. rewrite Hrun1. rewrite Hrun.
      rewrite Ht, Hlat, Hcost, He, Ha, Hm1, Ha1, Hth', Hth1. cbn.
      repeat split; try reflexivity; try assumption. lia. }
  destruct Hrun as (w' & Hrun & Hfree' & _ & Ht & Hlat & Hcost & He & Ha).
  exists w'. repeat (split; [assumption|]).
  destruct (get_system_health_free w' Hfree') as (w'' & Hh & _).
  exists (snapshot w'), w''. split; [exact Hh|]. split; reflexivity.
Qed.

Lemma record_operations_add_up_witness :
  exists w',
    record_operations [(100, 0); (250, 1 # 1000); (50, 0)]%Q fresh
      = Returned () w' /\
    total_operations (metrics w') = 3 /\
    total_latency (metrics w') = (0 + 100 + 250 + 50)%Q.
Proof.
  destruct (record_operations_add_up
              [(100, 0); (250, 1 # 1000); (50, 0)]%Q fresh 3000 (5 # 1000)
              eq_refl eq_refl eq_refl)
    as (w' & Hrun & _ & Ht & Hlat & _).
  { repeat constructor; cbn; discriminate. }
  exists w'. split; [exact Hrun|]. split; [exact Ht | exact Hlat].
Defined.

(** A write that the store accepts: the record, and what is left of the
    world for the next write. *)
Lemma record_metric_ok mt v md w :
  head (faults w) <> Some true ->
  exists w',
    TelemetryManagerMongoDB.record_metric mt v md w
      = Returned (str_id (next_id w)) w' /\
    same_self w w' /\
    mongo w' =
      Store.mk (Store.telemetry (mongo w) ++
                  [mkMetricRecord (Some (next_id w)) mt v (default [] md)
                                  (clock w)])
               (Store.alerts (mongo w)) (Store.system_health (mongo w)) /\
    clock w' = clock w /\ next_id w' = S (next_id w) /\
    faults w' = tail (faults w).
Proof.
  unfold TelemetryManagerMongoDB.record_metric, same_self.
  unfold_handler. unfold_monad.
  destruct (faults w) as [|[] fs'] eqn:E; cbn; rewrite ?E; cbn;
    [|congruence|]; intros _;
    (eexists; split; [reflexivity|]); cbn; rewrite ?E; tauto.
Qed.

(** [record_metric] never touches the alerts collection. *)
Lemma record_metric_store_alerts mt v md w :
  Store.alerts (mongo (final (TelemetryManagerMongoDB.record_metric mt v md w)))
  = Store.alerts (mongo w).
Proof.
  unfold TelemetryManagerMongoDB.record_metric.
  unfold_handler. unfold_monad.
  destruct (faults w) as [|[] fs'] eqn:E; cbn; rewrite ?E; reflexivity.
Qed.

Lemma no_fault_2 w :
  no_fault 2 w ->
  head (faults w) <> Some true /\ head (tail (faults w)) <> Some true.
Proof.
  unfold no_fault. destruct (faults w) as [|b1 [|b2 fs']]; cbn;
    intros H; split; try congruence; intros [= ->]; apply H;
    repeat constructor.
Qed.

(** X6: an operation within the thresholds, on a store that accepts its
    writes, stores one [latency] record and, when its cost is positive, one
    [cost] record after it, both stamped with the time of the call and with
    empty metadata; it stores nothing else. *)
Theorem record_operation_stores_its_metrics
        (latency_ms cost_usd : Q) (w : world) (tl tc : Q) :
  lock w = false ->
  alert_thresholds w !! "latency" = Some tl ->
  alert_thresholds w !! "cost" = Some tc ->
  (latency_ms <= tl)%Q -> (cost_usd <= tc)%Q ->
  no_fault 2 w ->
  exists w',
    TelemetryManagerMongoDB.record_operation latency_ms cost_usd true w
      = Returned () w' /\
    Store.telemetry (mongo w') =
      Store.telemetry (mongo w) ++
      mkMetricRecord (Some (next_id w)) "latency" latency_ms [] (clock w) ::
      (if Qgt_bool cost_usd 0
       then [mkMetricRecord (Some (S (next_id w))) "cost" cost_usd []
                            (clock w)]
       else []) /\
    Store.alerts (mongo w') = Store.alerts (mongo w) /\
    Store.system_health (mongo w') = Store.system_health (mongo w).
Proof.
  intros Hfree Hl Hc Hle1 Hle2 Hok.
  apply no_fault_2 in Hok as [Hok1 Hok2].
  apply Qgt_bool_false in Hle1, Hle2.
  unfold TelemetryManagerMongoDB.record_operation.
  unfold_monad. rewrite Hfree. cbn.
  match goal with
  | |- context [TelemetryManagerMongoDB.record_metric ?mt ?v ?md ?w0] =>
      destruct (record_metric_ok mt v md w0 Hok1)
        as (w1 & -> & (Hk1 & _ & _ & Hth1 & _) & Hdb1 & Hclk1 & Hid1 & Hf1)
  end.
  cbn in *.
  destruct (Qgt_bool cost_usd 0); cbn.
  - rewrite <- Hf1 in Hok2.
    match goal with
    | |- context [TelemetryManagerMongoDB.record_metric ?mt ?v ?md ?w0] =>
        destruct (record_metric_ok mt v md w0 Hok2)
          as (w2 & -> & (Hk2 & _ & _ & Hth2 & _) & Hdb2 & _)
    end.
    cbn. rewrite <- Hth1, <- Hth2 in Hl, Hc.
    destruct (check_alert_conditions_held_cases
                latency_ms cost_usd true w2 tl tc) as [(_ & _ & ->)|(Hover & _)];
      [congruence | assumption | assumption | | destruct Hover; congruence].
    eexists. split; [reflexivity|]. cbn. rewrite Hdb2, Hdb1, Hclk1, Hid1. cbn.
    rewrite <- app_assoc. auto.
  - rewrite <- Hth1 in Hl, Hc.
    destruct (check_alert_conditions_held_cases
                latency_ms cost_usd true w1 tl tc) as [(_ & _ & ->)|(Hover & _)];
      [congruence | assumption | assumption | | destruct Hover; congruence].
    eexists. split; [reflexivity|]. cbn. rewrite Hdb1. cbn. auto.
Qed.

Lemma record_operation_stores_its_metrics_witness :
  exists w',
    TelemetryManagerMongoDB.record_operation 120 (1 # 1000) true fresh
      = Returned () w' /\
    (m_metric_type <$> Store.telemetry (mongo w')) = ["latency"; "cost"].
Proof.
  assert (Hok : no_fault 2 fresh) by apply not_elem_of_nil.
  destruct (record_operation_stores_its_metrics
              120 (1 # 1000) fresh 3000 (5 # 1000) eq_refl eq_refl eq_refl)
    as (w' & Hrun & Hdb & _); [discriminate | discriminate | exact Hok |].
  exists w'. split; [exact Hrun|]. rewrite Hdb. reflexivity.
Defined.

(** X7: the steps of [send_alert] do not depend on each other.  Called with
    the lock free it returns, with the alert appended to [self.alerts];
    the alert document is in the store exactly when the store accepted it,
    and the alert was posted exactly when a webhook is configured and the
    request went through, whatever the other step did. *)
Theorem send_alert_steps_are_independent
        (alert_type : string) (data : pydict) (w : world) :
  lock w = false ->
  let alert :=
    mkAlert (clock w) alert_type (severity_map_get alert_type) data false in
  exists w',
    TelemetryManagerMongoDB.send_alert alert_type data w = Returned () w' /\
    lock w' = false /\ metrics w' = metrics w /\
    alerts w' = alerts w ++ [alert] /\
    Store.alerts (mongo w') =
      (if store_accepts w
       then Store.alerts (mongo w) ++
              [mkAlertRecord (Some (next_id w)) alert_type
                 (severity_map_get alert_type) data (clock w) false]
       else Store.alerts (mongo w)) /\
    Store.telemetry (mongo w') = Store.telemetry (mongo w) /\
    posted w' =
      match webhook_delivery w with
      | Some url => posted w ++ [(url, alert)]
      | None => posted w
      end.
Proof.
  intros H alert. subst alert.
  unfold TelemetryManagerMongoDB.send_alert, store_accepts, webhook_delivery,
    requests_post.
  unfold_handler. unfold_monad. rewrite H. cbn.
  destruct (faults w) as [|[] fs'] eqn:E; cbn; rewrite ?E; cbn;
    (destruct (ALERT_WEBHOOK w) as [url|]; cbn;
     [destruct (String.eqb url ""); cbn;
      [|destruct (net_faults w) as [|[] nf]; cbn]|]);
    (eexists; split; [reflexivity|]); cbn; tauto.
Qed.

Lemma send_alert_steps_are_independent_witness :
  exists w',
    TelemetryManagerMongoDB.send_alert "high_cost" []
      (set_ALERT_WEBHOOK (Some "http://hook") (set_faults [true] fresh))
      = Returned () w' /\
    Store.alerts (mongo w') = [] /\
    (fst <$> posted w') = ["http://hook"] /\
    (severity <$> alerts w') = ["warning"].
Proof.
  destruct (send_alert_steps_are_independent "high_cost" []
              (set_ALERT_WEBHOOK (Some "http://hook") (set_faults [true] fresh))
              eq_refl) as (w' & Hrun & _ & _ & Ha & Hdb & _ & Hp).
  exists w'. split; [exact Hrun|]. rewrite Ha, Hdb, Hp. repeat split.
Defined.

(** X8: [record_error], called on its own with the lock free and an
    [error_rate] threshold configured, counts the error and returns exactly
    when the new error rate is not over the threshold; when it is over, the
    call stops at the lock in [send_alert].  Either way it leaves no alert,
    neither in memory nor in the store. *)
Theorem record_error_returns_iff
        (error_type : string) (details : option pydict) (w : world) (t : Q) :
  lock w = false ->
  alert_thresholds w !! "error_rate" = Some t ->
  let rate :=
    (inject_Z (error_count (metrics w) + 1) /
     inject_Z (Z.max 1 (total_operations (metrics w))))%Q in
  let o := TelemetryManagerMongoDB.record_error error_type details w in
  ((exists w', o = Returned () w') <-> (rate <= t)%Q) /\
  (~ (rate <= t)%Q -> exists w', o = Blocked w' /\ lock w' = true) /\
  error_count (metrics (final o)) = error_count (metrics w) + 1 /\
  total_operations (metrics (final o)) = total_operations (metrics w) /\
  alerts (final o) = alerts w /\
  Store.alerts (mongo (final o)) = Store.alerts (mongo w).
Proof.
  intros Hfree Ht rate o. subst rate o.
  rewrite <- Qgt_bool_false.
  unfold TelemetryManagerMongoDB.record_error.
  unfold_monad. rewrite Hfree. cbn.
  match goal with
  | |- context [TelemetryManagerMongoDB.record_metric ?mt ?v ?md ?w0] =>
      pose proof (record_metric_store_alerts mt v md w0) as Hdb;
      destruct (record_metric_spec mt v md w0)
        as (id & w1 & Hrun & (Hk & Hm & Ha & Hth & _) & _ & _);
      rewrite Hrun in Hdb |- *
  end.
  cbn in *. rewrite truediv_floor. cbn. rewrite Hth, Ht. cbn.
  rewrite Hm. cbn.
  destruct (Qgt_bool _ t) eqn:Hrate; cbn.
  - rewrite send_alert_held by assumption. cbn. rewrite Hm. cbn.
    split; [split; [intros (w' & [=]) | discriminate]|].
    split; [intros _; eauto|]. auto.
  - rewrite Hm. cbn.
    split; [split; [reflexivity | eauto]|].
    split; [intros Hn; congruence|]. auto.
Qed.

Lemma record_error_returns_iff_witness :
  exists w',
    TelemetryManagerMongoDB.record_error "general" None fresh = Blocked w' /\
    error_count (metrics w') = 1 /\ alerts w' = [].
Proof.
  destruct (record_error_returns_iff "general" None fresh (1 # 10)
              eq_refl eq_refl) as (_ & Hblock & He & _ & Ha & _).
  destruct Hblock as (w' & Hrun & _); [intros H; apply H; reflexivity|].
  rewrite Hrun in He, Ha. exists w'. split; [exact Hrun|].
  split; [exact He | exact Ha].
Defined.

(** X9: a configuration file that parses is taken as it is.  Its
    [thresholds] entry replaces the built-in thresholds as a whole (the
    built-in ones only stand in when the entry is missing), so with an entry
    that names [latency] but not [cost] every successful operation is
    counted and then ends in [KeyError('cost')]. *)
Theorem configured_thresholds_replace_defaults
        (w : world) (path : string) (cfg : option (gmap string Q)) :
  path <> "" ->
  fs w !! path = Some (JSONObject cfg) ->
  no_fault 1 w ->
  exists w',
    TelemetryManagerMongoDB.__init__ (Some path) w = Returned () w' /\
    alert_thresholds w' =
      match cfg with
      | Some thresholds => thresholds
      | None => default_thresholds
      end /\
    lock w' = false /\ alerts w' = [] /\
    metrics w' = mkMetrics 0 0 0 0 (clock w) /\
    (forall tl latency_ms cost_usd,
       alert_thresholds w' !! "latency" = Some tl ->
       alert_thresholds w' !! "cost" = None ->
       exists w'',
         TelemetryManagerMongoDB.record_operation latency_ms cost_usd true w'
           = Raised (KeyError "cost") w'' /\
         total_operations (metrics w'') = 1).
Proof.
  intros Hne Hfile Hok. apply no_fault_head in Hok.
  apply String.eqb_neq in Hne.
  assert (Hinit : exists w',
    TelemetryManagerMongoDB.__init__ (Some path) w = Returned () w' /\
    alert_thresholds w' = default default_thresholds cfg /\
    lock w' = false /\ alerts w' = [] /\
    metrics w' = mkMetrics 0 0 0 0 (clock w)).
  { unfold TelemetryManagerMongoDB.__init__,
      TelemetryManagerMongoDB._load_config.
    unfold_handler. unfold_monad. rewrite Hne, Hfile.
    rewrite bool_decide_eq_true_2 by eauto. cbn.
    destruct (faults w) as [|[] fs']; [|now elim Hok|]; cbn;
      (eexists; split; [reflexivity|]); cbn; auto. }
  destruct Hinit as (w' & Hrun & Hth & Hfree & Ha & Hm).
  exists w'. split; [exact Hrun|]. split; [rewrite Hth; destruct cfg; reflexivity|].
  repeat (split; [assumption|]).
  intros tl l c Hl Hc.
  destruct (record_operation_reaches_check l c w' Hfree)
    as (w1 & -> & _ & Hm1 & _ & Hth1).
  unfold TelemetryManagerMongoDB._check_alert_conditions.
  unfold_monad. cbn. rewrite Hth1, Hl, Hc. cbn.
  eexists. split; [reflexivity|]. cbn. rewrite Hm1, Hm. reflexivity.
Qed.

Lemma configured_thresholds_replace_defaults_witness :
  exists w' w'',
    TelemetryManagerMongoDB.__init__ (Some "t.json")
      (set_fs {["t.json" := JSONObject (Some {["latency" := 1000%Q]})]} boot)
      = Returned () w' /\
    alert_thresholds w' !! "error_rate" = None /\
    TelemetryManagerMongoDB.record_operation 10 0 true w'
      = Raised (KeyError "cost") w''.
Proof.
  assert (Hok : no_fault 1
    (set_fs {["t.json" := JSONObject (Some {["latency" := 1000%Q]})]} boot))
    by apply not_elem_of_nil.
  destruct (configured_thresholds_replace_defaults
              (set_fs {["t.json" := JSONObject (Some {["latency" := 1000%Q]})]}
                      boot)
              "t.json" (Some {["latency" := 1000%Q]}))
    as (w' & Hrun & Hth & _ & _ & _ & Hop);
    [discriminate | reflexivity | exact Hok |].
  destruct (Hop 1000%Q 10%Q 0%Q) as (w'' & Hraise & _);
    [rewrite Hth; reflexivity..|].
  exists w', w''. split; [exact Hrun|]. split; [|exact Hraise].
  rewrite Hth. reflexivity.
Defined.

(** ** The summary *)



















(** ** Reading alerts and health documents back *)

#[local] Instance newer_first_total :
  Total (fun x y : AlertRecord =>
           Is_true (Qle_bool (a_timestamp y) (a_timestamp x))).
Proof.
  intros x y. rewrite !Is_true_true, !Qle_bool_iff.
  destruct (Qlt_le_dec (a_timestamp x) (a_timestamp y)) as [H|H];
    [right; apply Qlt_le_weak, H | left; exact H].
Qed.

#[local] Instance newer_first_trans :
  Transitive (fun x y : AlertRecord =>
                Is_true (Qle_bool (a_timestamp y) (a_timestamp x))).
Proof.
  intros x y z. rewrite !Is_true_true, !Qle_bool_iff.
  intros H1 H2. eapply Qle_trans; eassumption.
Qed.

(** X14: on a store that answers, [get_recent_alerts(n)] returns alert
    documents of the collection, newest first, and those it leaves out are
    none of them newer than one it returns; for [n > 0] it returns [n] of
    them, or all if there are fewer.  When the read fails it returns the
    empty list. *)
Theorem get_recent_alerts_newest_first (n : Z) (w : world) :
  (store_accepts w = true ->
   exists l rest w',
     TelemetryManagerMongoDB.get_recent_alerts n w = Returned l w' /\
     l ++ rest ≡ₚ Store.alerts (mongo w) /\
     StronglySorted (fun x y => (a_timestamp y <= a_timestamp x)%Q) l /\
     (forall x y, x ∈ l -> y ∈ rest -> (a_timestamp y <= a_timestamp x)%Q) /\
     (0 < n -> length l = Nat.min (Z.to_nat n)
                                  (length (Store.alerts (mongo w)))) /\
     (n = 0 -> rest = []) /\
     mongo w' = mongo w) /\
  (store_accepts w = false ->
   exists w',
     TelemetryManagerMongoDB.get_recent_alerts n w = Returned [] w' /\
     mongo w' = mongo w).
Proof.
  set (R := fun x y : AlertRecord =>
              Is_true (Qle_bool (a_timestamp y) (a_timestamp x))).
  set (sorted := merge_sort R (Store.alerts (mongo w))).
  set (k := if n =? 0 then length sorted else Z.abs_nat n).
  assert (Hlimit : MongoDBHandler.limit n sorted = take k sorted).
  { unfold MongoDBHandler.limit, k. destruct (n =? 0); [|reflexivity].
    symmetry. apply take_ge. reflexivity. }
  assert (Hperm : sorted ≡ₚ Store.alerts (mongo w))
    by apply merge_sort_Permutation.
  assert (Hlist :
    take k sorted ++ drop k sorted ≡ₚ Store.alerts (mongo w) /\
    StronglySorted (fun x y => (a_timestamp y <= a_timestamp x)%Q)
                   (take k sorted) /\
    (forall x y, x ∈ take k sorted -> y ∈ drop k sorted ->
                 (a_timestamp y <= a_timestamp x)%Q) /\
    (0 < n -> length (take k sorted) =
              Nat.min (Z.to_nat n) (length (Store.alerts (mongo w)))) /\
    (n = 0 -> drop k sorted = [])).
  { assert (Hsorted : StronglySorted R (take k sorted ++ drop k sorted)).
    { rewrite take_drop. apply (StronglySorted_merge_sort R). }
    apply StronglySorted_app in Hsorted as (Hcross & Hl & _).
    split; [rewrite take_drop; exact Hperm|].
    split.
    { clear -Hl. induction Hl as [|x l' _ IH Hx]; constructor; [exact IH|].
      eapply Forall_impl; [exact Hx|]. intros y Hy.
      apply Qle_bool_iff, Is_true_true, Hy. }
    split.
    { intros x y Hx Hy. apply Qle_bool_iff, Is_true_true, (Hcross x y Hx Hy). }
    split.
    { intros Hpos. unfold k. destruct (n =? 0) eqn:E; [lia|].
      rewrite length_take, (Permutation_length Hperm).
      f_equal. lia. }
    intros ->. unfold k. cbn. apply drop_all. }
  unfold TelemetryManagerMongoDB.get_recent_alerts, store_accepts.
  unfold_handler. unfold_monad. split.
  - intros Hok. exists (take k sorted), (drop k sorted).
    destruct (faults w) as [|[] fs']; [|discriminate|]; cbn;
      fold R; fold sorted; rewrite Hlimit;
      (eexists; split; [reflexivity|]);
      destruct Hlist as (? & ? & ? & ? & ?); auto 10.
  - intros Hbad. destruct (faults w) as [|[] fs']; try discriminate. cbn.
    eexists. split; [reflexivity|]. reflexivity.
Qed.

Lemma get_recent_alerts_newest_first_witness :
  exists l rest w',
    TelemetryManagerMongoDB.get_recent_alerts 1
      (after_all [SendAlert "high_cost" []; Wait 5; SendAlert "high_latency" []]
                 fresh) = Returned l w' /\
    length l = 1%nat /\ length (l ++ rest) = 2%nat.
Proof.
  destruct (get_recent_alerts_newest_first 1
    (after_all [SendAlert "high_cost" []; Wait 5; SendAlert "high_latency" []]
               fresh)) as [Hok _].
  destruct (Hok eq_refl) as (l & rest & w' & Hrun & Hperm & _ & _ & Hlen & _).
  exists l, rest, w'. split; [exact Hrun|].
  split; [apply Hlen; reflexivity|].
  rewrite (Permutation_length Hperm). reflexivity.
Defined.

#[local] Instance newest_health_total :
  Total (fun x y : HealthData =>
           Is_true (stamp_le (h_timestamp y) (h_timestamp x))).
Proof.
  intros x y. destruct (h_timestamp x) as [a|], (h_timestamp y) as [b|]; cbn;
    auto.
  rewrite !Is_true_true, !Qle_bool_iff.
  destruct (Qlt_le_dec a b) as [H|H]; [right; apply Qlt_le_weak, H | left; exact H].
Qed.

#[local] Instance newest_health_trans :
  Transitive (fun x y : HealthData =>
                Is_true (stamp_le (h_timestamp y) (h_timestamp x))).
Proof.
  intros x y z.
  destruct (h_timestamp x) as [a|], (h_timestamp y) as [b|],
    (h_timestamp z) as [c|]; cbn; auto; try contradiction.
  rewrite !Is_true_true, !Qle_bool_iff. intros H1 H2.
  eapply Qle_trans; eassumption.
Qed.







(** ** The SQLite-backed manager *)

(** X17: in the SQLite-backed [send_alert] the insert comes after the alert
    is appended to [self.alerts] and has no handler.  Called with the lock
    free it always leaves the alert in memory and the lock released; when
    the insert fails the call raises, nothing is stored or posted, and the
    alert stays in memory all the same. *)
Theorem sqlite_send_alert_keeps_the_alert
        (alert_type : string) (data : pydict) (w : world) :
  lock w = false ->
  let alert :=
    mkAlert (clock w) alert_type (severity_map_get alert_type) data false in
  let o := TelemetryManager.send_alert alert_type data w in
  alerts (final o) = alerts w ++ [alert] /\
  lock (final o) = false /\
  (store_accepts w = true ->
   exists w',
     o = Returned () w' /\
     Store.alerts (mongo w') =
       Store.alerts (mongo w) ++
       [mkAlertRecord (Some (next_id w)) alert_type
          (severity_map_get alert_type) data (clock w) false] /\
     posted w' =
       match webhook_delivery w with
       | Some url => posted w ++ [(url, alert)]
       | None => posted w
       end) /\
  (store_accepts w = false ->
   exists w',
     o = Raised SqliteError w' /\ mongo w' = mongo w /\ posted w' = posted w).
Proof.
  intros H alert o. subst alert o.
  unfold TelemetryManager.send_alert, TelemetryManager.alerts_insert,
    store_accepts, webhook_delivery, requests_post.
  unfold_monad. rewrite H. cbn.
  destruct (faults w) as [|[] fs'] eqn:E; cbn; rewrite ?E; cbn;
    (destruct (ALERT_WEBHOOK w) as [url|]; cbn;
     [destruct (String.eqb url ""); cbn;
      [|destruct (net_faults w) as [|[] nf]; cbn]|]);
    (split; [reflexivity|]); (split; [reflexivity|]);
    (split; intros [=]); eexists; (split; [reflexivity|]); cbn; auto.
Qed.

Lemma sqlite_send_alert_keeps_the_alert_witness :
  exists w',
    TelemetryManager.send_alert "high_cost" [] (set_faults [true] sqlite_fresh)
      = Raised SqliteError w' /\
    (alert_type <$> alerts w') = ["high_cost"] /\ Store.alerts (mongo w') = [].
Proof.
  destruct (sqlite_send_alert_keeps_the_alert "high_cost" []
              (set_faults [true] sqlite_fresh) eq_refl)
    as (Ha & _ & _ & Hbad).
  destruct (Hbad eq_refl) as (w' & Hrun & Hdb & _).
  rewrite Hrun in Ha. exists w'. split; [exact Hrun|].
  cbn in Ha. rewrite Ha, Hdb. split; reflexivity.
Defined.




(** X19: the SQLite-backed [get_system_health] only reads: called with the
    lock free it returns the counters, the rates over
    [max(1, total_operations)] and the number of unresolved alerts, and the
    world afterwards is the world before, store included. *)
Theorem sqlite_get_system_health_only_reads (w : world) :
  lock w = false ->
  exists h,
    TelemetryManager.get_system_health w = Returned h w /\
    h_total_operations h = total_operations (metrics w) /\
    h_error_count h = error_count (metrics w) /\
    total_cost_usd h = total_cost (metrics w) /\
    uptime_seconds h = (clock w - start_time (metrics w))%Q /\
    active_alerts h = count_active (alerts w) /\
    h_id h = None /\ h_timestamp h = None.
Proof.
  intros H. unfold TelemetryManager.get_system_health.
  unfold_monad. rewrite H. cbn.
  rewrite !truediv_floor. cbn. rewrite ?truediv_floor. cbn.
  eexists. split.
  { f_equal. destruct w; unfold set_lock; cbn in *. subst. reflexivity. }
  cbn. repeat split.
Qed.

Lemma sqlite_get_system_health_only_reads_witness :
  exists h,
    TelemetryManager.get_system_health sqlite_fresh = Returned h sqlite_fresh /\
    active_alerts h = 0.
Proof.
  destruct (sqlite_get_system_health_only_reads sqlite_fresh eq_refl)
    as (h & Hrun & _ & _ & _ & _ & Ha & _).
  exists h. split; [exact Hrun | exact Ha].
Defined.

(** ** Alerts saved by the application *)

(** X20: [log_event] of [app_mongodb.py] never raises and never waits: it
    saves the event as an alert document, with severity [warning] when the
    lower-cased event type contains [alert] and [info] otherwise, or logs
    the failure of the store.  It goes past the manager: [self.alerts] and
    the counters stay as they are, so [get_system_health] does not count
    the alert as active, although the document lies in the window of every
    summary taken at that moment. *)
Theorem log_event_goes_past_the_manager
        (event_type : string) (data : pydict) (w : world) :
  let severity :=
    if contains "alert" (lower event_type) then "warning" else "info" in
  let doc :=
    mkAlertRecord (Some (next_id w)) event_type severity data (clock w) false in
  exists w',
    app_mongodb.log_event event_type data w = Returned () w' /\
    same_self w w' /\ clock w' = clock w /\
    Store.telemetry (mongo w') = Store.telemetry (mongo w) /\
    Store.alerts (mongo w') =
      (if store_accepts w then Store.alerts (mongo w) ++ [doc]
       else Store.alerts (mongo w)) /\
    (store_accepts w = true ->
     forall hours, 0 <= hours -> doc ∈ alert_window hours w') /\
    (lock w = false ->
     exists h w'',
       TelemetryManagerMongoDB.get_system_health w' = Returned h w'' /\
       active_alerts h = count_active (alerts w)).
Proof.
  intros severity doc.
  assert (Hrun : exists w',
    app_mongodb.log_event event_type data w = Returned () w' /\
    same_self w w' /\ clock w' = clock w /\
    Store.telemetry (mongo w') = Store.telemetry (mongo w) /\
    Store.alerts (mongo w') =
      (if store_accepts w then Store.alerts (mongo w) ++ [doc]
       else Store.alerts (mongo w))).
  { subst severity doc.
    unfold app_mongodb.log_event, store_accepts, same_self.
    unfold_handler. unfold_monad.
    destruct (faults w) as [|[] fs'] eqn:E; cbn; rewrite ?E; cbn;
      (eexists; split; [reflexivity|]); cbn; tauto. }
  destruct Hrun as (w' & Hrun & Hs & Hclk & Ht & Ha).
  exists w'. repeat (split; [assumption|]). split.
  - intros Hok hours Hh. unfold alert_window.
    rewrite list_elem_of_filter, Ha, Hok, Hclk. split.
    + subst doc. cbn. rewrite Is_true_true, Qle_bool_iff.
      assert (0 <= inject_Z (hours * 3600))%Q
        by (change 0%Q with (inject_Z 0); rewrite <- Zle_Qle; lia).
      lra.
    + apply elem_of_app. right. left.
  - intros Hfree. destruct Hs as (Hl & _ & Hal & _).
    destruct (get_system_health_free w') as (w'' & Hh & _); [congruence|].
    exists (snapshot w'), w''. split; [exact Hh|]. cbn. rewrite Hal.
    reflexivity.
Qed.

Lemma log_event_goes_past_the_manager_witness :
  exists w',
    app_mongodb.log_event "HIGH_COST_ALERT" [] fresh = Returned () w' /\
    (a_severity <$> Store.alerts (mongo w')) = ["warning"] /\
    alerts w' = [].
Proof.
  destruct (log_event_goes_past_the_manager "HIGH_COST_ALERT" [] fresh)
    as (w' & Hrun & (_ & _ & Ha & _) & _ & _ & Hdb & _).
  exists w'. split; [exact Hrun|]. rewrite Hdb, Ha. split; reflexivity.
Defined.
